(** * Technical-analysis indicators and rule-based recommendation

    A shallow embedding of [calcular_indicadores] and
    [generar_recomendacion] of [index.py], with the pandas operations they
    call ([rolling(n).mean()], [diff], [where], [ewm(span, adjust=False).mean()],
    column access, [iloc[-1]], elementwise arithmetic) written out as list
    functions.

    Numbers.  A pandas float column holds IEEE-754 doubles.  The embedding
    keeps the three special values that drive the behaviour of the source
    (NaN, +inf, -inf) and represents every finite value by an exact rational:
    rounding is not modelled, and neither is the sign of zero (a positive
    value divided by zero gives an infinity whichever the sign of that zero
    is, and [100 / (1 + rs)] is then zero either way).  Two finite values
    are compared with [feq], equality of the fractions.

    Exceptions.  Column access and [iloc[-1]] are the two operations of the
    source that can raise; they return in [res], and the functions that call
    them are written in that monad.

    Layout: the value domain, the pandas operations, the table and the two
    functions of the source, the specification-side definitions the
    statements compare them with, then the proofs. *)

From Stdlib Require Import QArith Lqa Lia List.
From stdpp Require Import gmap strings list fin_maps.

(** ** Float values *)

Module Float.

Local Open Scope Q_scope.

Inductive fval : Type :=
  | Fin (q : Q)
  | PInf
  | NInf
  | NaN.

Definition is_nan (x : fval) : bool :=
  match x with NaN => true | _ => false end.

Definition is_finite (x : fval) : bool :=
  match x with Fin _ => true | _ => false end.

Definition is_inf (x : fval) : bool :=
  match x with PInf | NInf => true | _ => false end.

(** The rational held by a finite value (0 elsewhere; only used under
    [is_finite]). *)
Definition q_of (x : fval) : Q :=
  match x with Fin q => q | _ => 0 end.

Definition Qltb (a b : Q) : bool := negb (Qle_bool b a).

Definition fneg (x : fval) : fval :=
  match x with
  | Fin q => Fin (- q)
  | PInf => NInf
  | NInf => PInf
  | NaN => NaN
  end.

Definition fadd (x y : fval) : fval :=
  match x, y with
  | NaN, _ | _, NaN => NaN
  | Fin a, Fin b => Fin (a + b)
  | PInf, NInf | NInf, PInf => NaN
  | PInf, _ | _, PInf => PInf
  | NInf, _ | _, NInf => NInf
  end.

Definition fsub (x y : fval) : fval := fadd x (fneg y).

(** Sign of an infinity times a finite factor: zero times infinity is
    invalid. *)
Definition inf_times (pos : bool) (q : Q) : fval :=
  if Qeq_bool q 0 then NaN
  else if Qltb 0 q then (if pos then PInf else NInf)
  else (if pos then NInf else PInf).

Definition fmul (x y : fval) : fval :=
  match x, y with
  | NaN, _ | _, NaN => NaN
  | Fin a, Fin b => Fin (a * b)
  | PInf, Fin b => inf_times true b
  | NInf, Fin b => inf_times false b
  | Fin a, PInf => inf_times true a
  | Fin a, NInf => inf_times false a
  | PInf, PInf | NInf, NInf => PInf
  | PInf, NInf | NInf, PInf => NInf
  end.

(** numpy's true division: no exception, [0/0] is NaN, a non-zero value
    over zero is an infinity, a finite value over an infinity is zero. *)
Definition fdiv (x y : fval) : fval :=
  match x, y with
  | NaN, _ | _, NaN => NaN
  | Fin a, Fin b =>
      if Qeq_bool b 0 then
        (if Qeq_bool a 0 then NaN else if Qltb 0 a then PInf else NInf)
      else Fin (a / b)
  | Fin _, (PInf | NInf) => Fin 0
  | (PInf | NInf), (PInf | NInf) => NaN
  | PInf, Fin b => if Qltb b 0 then NInf else PInf
  | NInf, Fin b => if Qltb b 0 then PInf else NInf
  end.

(** Comparisons: every comparison with NaN is false. *)
Definition fgt (x y : fval) : bool :=
  match x, y with
  | NaN, _ | _, NaN => false
  | Fin a, Fin b => Qltb b a
  | PInf, PInf => false
  | PInf, _ => true
  | _, NInf => match x with NInf => false | _ => true end
  | _, _ => false
  end.

Definition flt (x y : fval) : bool := fgt y x.

(** [==] on floats: false on NaN. *)
Definition feqb (x y : fval) : bool :=
  match x, y with
  | Fin a, Fin b => Qeq_bool a b
  | PInf, PInf | NInf, NInf => true
  | _, _ => false
  end.

(** Same value: the equivalence used to state results; two finite values
    are the same when the rationals are equal as fractions. *)
Definition feq (x y : fval) : Prop :=
  match x, y with
  | Fin a, Fin b => a == b
  | PInf, PInf | NInf, NInf | NaN, NaN => True
  | _, _ => False
  end.

End Float.
Export Float.

(** ** The pandas operations on a column

    A column ([Series]) is the list of its values in index order; every
    operation below returns a column on the same index. *)

Module Pandas.

Abbreviation Series := (list fval).

Definition Qsum (l : list Q) : Q := fold_right Qplus 0%Q l.

(** [s.diff()]: the first value has no predecessor. *)
Definition diff (s : Series) : Series :=
  match s with
  | [] => []
  | _ :: tl => NaN :: zip_with fsub tl s
  end.

(** [s > c] and [s < c] against a scalar: a column of booleans. *)
Definition gt_scalar (s : Series) (c : fval) : list bool :=
  map (fun v => fgt v c) s.

Definition lt_scalar (s : Series) (c : fval) : list bool :=
  map (fun v => flt v c) s.

(** [s.where(cond, other)]: keep the value where [cond] holds, [other]
    elsewhere. *)
Definition where_ (s : Series) (cond : list bool) (other : fval) : Series :=
  zip_with (fun v (c : bool) => if c then v else other) s cond.

(** Unary minus and elementwise arithmetic, between two columns of one
    index and with a scalar on the left. *)
Definition neg (s : Series) : Series := map fneg s.
Definition sub (a b : Series) : Series := zip_with fsub a b.
Definition div (a b : Series) : Series := zip_with fdiv a b.
Definition scalar_add (c : fval) (s : Series) : Series := map (fadd c) s.
Definition scalar_sub (c : fval) (s : Series) : Series := map (fsub c) s.
Definition scalar_div (c : fval) (s : Series) : Series := map (fdiv c) s.

(** [s.rolling(n).mean()].  The window at index [i] holds the values at
    [i-n+1 .. i] that exist; [min_periods] defaults to the window size [n];
    infinities are turned into missing values before the window function
    runs; the result is the sum of the observations over their number when
    there are at least [min_periods] of them, and missing otherwise. *)
Definition inf_to_nan (x : fval) : fval :=
  if is_inf x then NaN else x.

Definition window (n i : nat) (s : Series) : Series :=
  drop (S i - n) (take (S i) s).

Definition window_mean (minp : nat) (w : Series) : fval :=
  let obs := List.filter is_finite w in
  let nobs := length obs in
  if (minp <=? nobs)%nat && (0 <? nobs)%nat
  then Fin (Qsum (map q_of obs) / inject_Z (Z.of_nat nobs))
  else NaN.

Definition rolling_mean (n : nat) (s : Series) : Series :=
  let vals := map inf_to_nan s in
  map (fun i => window_mean n (window n i vals)) (seq 0 (length s)).

(** [s.ewm(span=N, adjust=False).mean()], as pandas computes it
    ([ignore_na=False], [min_periods=0]): [weighted] is the running average
    and [old_wt] the weight it carries; a missing observation leaves the
    average as it is and lets its weight decay; the first observation after
    a missing start seeds the average. *)
Definition alpha_of_span (span : Z) : Q := (2 / (inject_Z span + 1))%Q.

Definition ewm_step (alpha : Q) (weighted : fval) (old_wt : Q) (cur : fval)
  : fval * Q :=
  let is_observation := negb (is_nan cur) in
  if negb (is_nan weighted) then
    let old_wt := (old_wt * (1 - alpha))%Q in
    if is_observation then
      let weighted :=
        if negb (feqb weighted cur)
        then fdiv (fadd (fmul (Fin old_wt) weighted) (fmul (Fin alpha) cur))
                  (Fin (old_wt + alpha)%Q)
        else weighted in
      (weighted, 1%Q)
    else (weighted, old_wt)
  else if is_observation then (cur, old_wt)
  else (weighted, old_wt).

Fixpoint ewm_loop (alpha : Q) (weighted : fval) (old_wt : Q) (vals : Series)
  : Series :=
  match vals with
  | [] => []
  | cur :: rest =>
      let '(weighted, old_wt) := ewm_step alpha weighted old_wt cur in
      weighted :: ewm_loop alpha weighted old_wt rest
  end.

Definition ewm_mean (span : Z) (s : Series) : Series :=
  match s with
  | [] => []
  | x0 :: rest => x0 :: ewm_loop (alpha_of_span span) x0 1%Q rest
  end.

End Pandas.
Export Pandas.

(** ** Exceptions and the table *)

Inductive exn : Type :=
  | KeyError (col : string)
  | IndexError.

Inductive res (A : Type) : Type :=
  | Ok (a : A)
  | Raise (e : exn).
Arguments Ok {A} a.
Arguments Raise {A} e.

Definition bind {A B : Type} (m : res A) (k : A -> res B) : res B :=
  match m with
  | Ok a => k a
  | Raise e => Raise e
  end.

Notation "'let*' x ':=' m 'in' k" := (bind m (fun x => k))
  (at level 10, x name, m at level 100, k at level 200).

(** A [DataFrame]: the index (the timestamps) and the columns by name, each
    column holding one value per index entry. *)
Record DataFrame : Type := mkDataFrame {
  df_index : list Z;
  df_cols : gmap string Series
}.

(** [data[col]]: [KeyError] when the column is absent. *)
Definition getitem (data : DataFrame) (col : string) : res Series :=
  match df_cols data !! col with
  | Some s => Ok s
  | None => Raise (KeyError col)
  end.

(** [data[col] = s], for a column [s] on the index of [data]: adds the
    column, or replaces the one of that name. *)
Definition setitem (data : DataFrame) (col : string) (s : Series) : DataFrame :=
  {| df_index := df_index data; df_cols := <[col := s]> (df_cols data) |}.

(** [s.iloc[-1]]: [IndexError] on a column without rows. *)
Definition iloc_last (s : Series) : res fval :=
  match last s with
  | Some v => Ok v
  | None => Raise IndexError
  end.

(** [indicadores.get(key)] used as a condition: an absent key gives [None],
    which is false. *)
Definition dict_get (indicadores : gmap string bool) (key : string) : bool :=
  default false (indicadores !! key).

(** Every column has one value per index entry. *)
Definition df_wf (data : DataFrame) : Prop :=
  forall col s, df_cols data !! col = Some s -> length s = length (df_index data).

(** ** [calcular_indicadores] *)

Definition calcular_sma (data : DataFrame) : res DataFrame :=
  let* precio := getitem data "Precio" in
  let data := setitem data "SMA50" (rolling_mean 50 precio) in
  let* precio := getitem data "Precio" in
  let data := setitem data "SMA200" (rolling_mean 200 precio) in
  Ok data.

(** The RSI column computed from the price column (lines 47 to 53). *)
Definition avg_gain (precio : Series) : Series :=
  let delta := diff precio in
  let gain := where_ delta (gt_scalar delta (Fin 0)) (Fin 0) in
  rolling_mean 14 gain.

Definition avg_loss (precio : Series) : Series :=
  let delta := diff precio in
  let loss := neg (where_ delta (lt_scalar delta (Fin 0)) (Fin 0)) in
  rolling_mean 14 loss.

Definition rsi_of (precio : Series) : Series :=
  let rs := div (avg_gain precio) (avg_loss precio) in
  scalar_sub (Fin 100) (scalar_div (Fin 100) (scalar_add (Fin 1) rs)).

Definition calcular_rsi (data : DataFrame) : res DataFrame :=
  let* precio := getitem data "Precio" in
  Ok (setitem data "RSI" (rsi_of precio)).

Definition macd_of (precio : Series) : Series :=
  sub (ewm_mean 12 precio) (ewm_mean 26 precio).

Definition calcular_macd (data : DataFrame) : res DataFrame :=
  let* precio := getitem data "Precio" in
  let ema12 := ewm_mean 12 precio in
  let* precio := getitem data "Precio" in
  let ema26 := ewm_mean 26 precio in
  let data := setitem data "MACD" (sub ema12 ema26) in
  let* macd := getitem data "MACD" in
  let data := setitem data "Signal" (ewm_mean 9 macd) in
  Ok data.

Definition calcular_indicadores (data : DataFrame)
    (indicadores : gmap string bool) : res DataFrame :=
  let* data := (if dict_get indicadores "sma" then calcular_sma data else Ok data) in
  let* data := (if dict_get indicadores "rsi" then calcular_rsi data else Ok data) in
  let* data := (if dict_get indicadores "macd" then calcular_macd data else Ok data) in
  Ok data.

(** ** [generar_recomendacion] *)

Definition msg_faltan : string :=
  "Faltan indicadores para generar una recomendación.".
Definition msg_alcista : string := "Tendencia alcista (Precio > SMA200 > SMA50)".
Definition msg_bajista : string := "Tendencia bajista (Precio < SMA200 < SMA50)".
Definition msg_golden : string := "Golden Cross (SMA50 > SMA200)".
Definition msg_death : string := "Death Cross (SMA50 < SMA200)".
Definition msg_rsi_alto : string := "RSI alto (>70) - posible sobrecompra".
Definition msg_rsi_bajo : string := "RSI bajo (<30) - posible sobreventa".

(** What the function returns: the label, its style class and the reasons. *)
Definition Recomendacion : Type := string * string * list string.

(** Lines 63 to 66: the latest value of the four columns. *)
Definition ultimos (data : DataFrame) : res (fval * fval * fval * fval) :=
  let* c := getitem data "Precio" in let* p := iloc_last c in
  let* c := getitem data "SMA50" in let* sma50 := iloc_last c in
  let* c := getitem data "SMA200" in let* sma200 := iloc_last c in
  let* c := getitem data "RSI" in let* rsi := iloc_last c in
  Ok (p, sma50, sma200, rsi).

(** Lines 70 to 92: the reasons and the score, threaded through the three
    [if]/[elif] statements. *)
Definition regla_tendencia (p sma50 sma200 : fval) (st : list string * Z)
  : list string * Z :=
  let '(condiciones, score) := st in
  if fgt p sma200 && fgt sma50 sma200 then (condiciones ++ [msg_alcista], score + 1)%Z
  else if flt p sma200 && flt sma50 sma200 then (condiciones ++ [msg_bajista], score - 1)%Z
  else (condiciones, score).

Definition regla_cruce (sma50 sma200 : fval) (st : list string * Z)
  : list string * Z :=
  let '(condiciones, score) := st in
  if fgt sma50 sma200 then (condiciones ++ [msg_golden], score + 1)%Z
  else if flt sma50 sma200 then (condiciones ++ [msg_death], score - 1)%Z
  else (condiciones, score).

Definition regla_rsi (rsi : fval) (st : list string * Z) : list string * Z :=
  let '(condiciones, score) := st in
  if fgt rsi (Fin 70) then (condiciones ++ [msg_rsi_alto], score - 1)%Z
  else if flt rsi (Fin 30) then (condiciones ++ [msg_rsi_bajo], score + 1)%Z
  else (condiciones, score).

Definition puntuar (p sma50 sma200 rsi : fval) : list string * Z :=
  regla_rsi rsi (regla_cruce sma50 sma200 (regla_tendencia p sma50 sma200 ([], 0%Z))).

(** Lines 94 to 99. *)
Definition clasificar (st : list string * Z) : Recomendacion :=
  let '(condiciones, score) := st in
  if (2 <=? score)%Z then ("COMPRA", "buy", condiciones)
  else if (score <=? -2)%Z then ("VENTA", "sell", condiciones)
  else ("MANTENER", "hold", condiciones).

(** The [try] block of lines 62 to 66 with its bare [except], which catches
    every exception and returns; then the scoring. *)
Definition generar_recomendacion (data : DataFrame) : res Recomendacion :=
  match ultimos data with
  | Raise _ => Ok ("MANTENER", "hold", [msg_faltan])
  | Ok (p, sma50, sma200, rsi) => Ok (clasificar (puntuar p sma50 sma200 rsi))
  end.

(** The latest value of one column. *)
Definition ultimo (data : DataFrame) (col : string) : res fval :=
  let* c := getitem data col in iloc_last c.

(** ** The rule table of the recommendation, as the specification words it

    Six independent rows, each with its condition, its reason and its score
    delta; the score is the sum of the deltas of the rows that hold and the
    reasons are theirs, in table order. *)

Definition tabla (p sma50 sma200 rsi : fval) : list (bool * (string * Z)) :=
  [ (fgt p sma200 && fgt sma50 sma200, (msg_alcista, 1%Z));
    (flt p sma200 && flt sma50 sma200, (msg_bajista, (-1)%Z));
    (fgt sma50 sma200, (msg_golden, 1%Z));
    (flt sma50 sma200, (msg_death, (-1)%Z));
    (fgt rsi (Fin 70), (msg_rsi_alto, (-1)%Z));
    (flt rsi (Fin 30), (msg_rsi_bajo, 1%Z)) ].

Definition razones_tabla (t : list (bool * (string * Z))) : list string :=
  map (fun r => fst (snd r)) (List.filter fst t).

Definition score_tabla (t : list (bool * (string * Z))) : Z :=
  fold_right Z.add 0%Z (map (fun r => snd (snd r)) (List.filter fst t)).


(** ** Concrete tables used to exercise the statements *)

(** A table of one row with the four columns the recommendation reads. *)
Definition tabla_ultimos (p sma50 sma200 rsi : fval) : DataFrame :=
  {| df_index := [0%Z];
     df_cols := {[ "Precio" := [p]; "SMA50" := [sma50];
                   "SMA200" := [sma200]; "RSI" := [rsi] ]} |}.

(** A table holding a price column alone, indexed 0, 1, 2, ... *)
Definition tabla_precios (precio : Series) : DataFrame :=
  {| df_index := map Z.of_nat (seq 0 (length precio));
     df_cols := {[ "Precio" := precio ]} |}.

(** A table without rows: the price column is there and empty. *)
Definition tabla_vacia : DataFrame := tabla_precios [].

Definition flags (sma rsi macd : bool) : gmap string bool :=
  {[ "sma" := sma; "rsi" := rsi; "macd" := macd ]}.

(** Price series: constant at 100; rising 1, 2, 3, ...; and 1 for the first
    [n] points then 2 for the next [m]. *)
Definition precios_planos (n : nat) : Series := replicate n (Fin 100).

Definition precios_rampa (n : nat) : Series :=
  map (fun i => Fin (inject_Z (Z.of_nat (S i)))) (seq 0 n).

Definition precios_escalon (n m : nat) : Series :=
  replicate n (Fin 1) ++ replicate m (Fin 2).

(** ** The columns [calcular_indicadores] leaves, in closed form *)

Definition cols_sma (precio : Series) (cols : gmap string Series)
  : gmap string Series :=
  <["SMA200" := rolling_mean 200 precio]>
    (<["SMA50" := rolling_mean 50 precio]> cols).

Definition cols_rsi (precio : Series) (cols : gmap string Series)
  : gmap string Series :=
  <["RSI" := rsi_of precio]> cols.

Definition cols_macd (precio : Series) (cols : gmap string Series)
  : gmap string Series :=
  <["Signal" := ewm_mean 9 (macd_of precio)]>
    (<["MACD" := macd_of precio]> cols).

Definition cols_indicadores (precio : Series) (indicadores : gmap string bool)
    (cols : gmap string Series) : gmap string Series :=
  let cols := if dict_get indicadores "sma" then cols_sma precio cols else cols in
  let cols := if dict_get indicadores "rsi" then cols_rsi precio cols else cols in
  if dict_get indicadores "macd" then cols_macd precio cols else cols.

(** The names of the derived columns. *)
Definition derivadas : list string := ["SMA50"; "SMA200"; "RSI"; "MACD"; "Signal"].

(** ** Specification-side definitions of the averages *)


(** The exponential average, by the recursion
    [ema[0] = x[0]], [ema[i] = alpha * x[i] + (1 - alpha) * ema[i-1]]. *)
Fixpoint ema_rec (alpha prev : Q) (xs : list Q) : list Q :=
  match xs with
  | [] => []
  | x :: rest =>
      let e := (alpha * x + (1 - alpha) * prev)%Q in
      e :: ema_rec alpha e rest
  end.

Definition ema_spec (alpha : Q) (xs : list Q) : list Q :=
  match xs with
  | [] => []
  | x0 :: rest => x0 :: ema_rec alpha x0 rest
  end.

(** ** The RSI at one index, from the two averages there *)

Definition rsi_valor (g l : fval) : fval :=
  fsub (Fin 100) (fdiv (Fin 100) (fadd (Fin 1) (fdiv g l))).

(** A value that is missing or a non-negative number. *)
Definition nonneg_or_nan (x : fval) : Prop :=
  match x with
  | Fin q => (0 <= q)%Q
  | NaN => True
  | _ => False
  end.

(** ** The rest of the script: download, preparation, metrics, display *)

(** Line 201: the style class of the verdict, looked up in a literal
    dictionary by subscript. *)
Definition reco_clases : gmap string string :=
  {[ "buy" := "buy"; "sell" := "sell"; "hold" := "hold" ]}.

Definition reco_clase (reco_tipo : string) : res string :=
  match reco_clases !! reco_tipo with
  | Some c => Ok c
  | None => Raise (KeyError reco_tipo)
  end.

(** The label of a recommendation. *)
Definition etiqueta (r : Recomendacion) : string := fst (fst r).

(** The mirror image of an RSI value around 50. *)
Definition rsi_espejo (rsi : fval) : fval := fsub (Fin 100) rsi.

(** A table with a volume column and no price column. *)
Definition tabla_solo_volumen : DataFrame :=
  {| df_index := [0%Z]; df_cols := {[ "Volumen" := [Fin 10] ]} |}.



(** *** Download (lines 35 to 40)

    What one call of [yf.download] does is not in the hands of the script:
    it returns a table or raises.  [mundo k] is what the [k]-th call does
    (counted from 1). *)
Inductive respuesta : Type :=
  | Devuelve (df : DataFrame)
  | Lanza.

(** [df.empty]: an axis of length 0, that is no rows or no columns. *)
Definition df_empty (df : DataFrame) : bool :=
  match df_index df with
  | [] => true
  | _ :: _ => bool_decide (size (df_cols df) = 0%nat)
  end.

(** The body of [safe_download]: the table, unless the call raised or the
    table is empty ([ValueError]); [None] stands for the exception. *)
Definition safe_download_body (r : respuesta) : option DataFrame :=
  match r with
  | Devuelve data => if df_empty data then None else Some data
  | Lanza => None
  end.

(** [@retry(stop=stop_after_attempt(3), wait=...)]: the body is called
    again after every exception until an attempt returns or [stop] attempts
    have been made; then [RetryError] is raised ([None]).  The result comes
    with the number of calls made.  The waits between attempts take time and
    change no value; they are left out. *)
Fixpoint retry {A : Type} (stop : nat) (body : nat -> option A)
    (attempt_number : nat) : option A * nat :=
  match stop with
  | O => (None, O)
  | S restantes =>
      match body attempt_number with
      | Some a => (Some a, 1%nat)
      | None =>
          match restantes with
          | O => (None, 1%nat)
          | S _ =>
              let '(r, n) := retry restantes body (S attempt_number) in
              (r, S n)
          end
      end
  end.

Definition safe_download (mundo : nat -> respuesta) : option DataFrame * nat :=
  retry 3 (fun k => safe_download_body (mundo k)) 1.

(** *** Preparation (lines 123 to 132) *)

(** [next((c for c in ['Adj Close', 'Close'] if c in df.columns), None)]. *)
Definition price_col (df : DataFrame) : option string :=
  List.find (fun c => bool_decide (is_Some (df_cols df !! c)))
            ["Adj Close"; "Close"].

(** [df[[c]].copy()] with its one column renamed ([data.columns = [name]]):
    a new table on the index of [df]. *)
Definition columna_como (df : DataFrame) (c name : string) : res DataFrame :=
  let* s := getitem df c in
  Ok {| df_index := df_index df; df_cols := {[ name := s ]} |}.

(** [None] is [st.stop()] after the error message: the script ends there. *)
Definition preparar_datos (df : DataFrame) : res (option DataFrame) :=
  match price_col df with
  | None => Ok None
  | Some c =>
      let* data := columna_como df c "Precio" in
      let* data :=
        (if bool_decide (is_Some (df_cols df !! "Volume"))
         then let* v := getitem df "Volume" in Ok (setitem data "Volumen" v)
         else Ok data) in
      Ok (Some data)
  end.

(** *** Metrics (lines 151 to 158) *)

(** [s.iloc[0]]. *)
Definition iloc_first (s : Series) : res fval :=
  match s with
  | v :: _ => Ok v
  | [] => Raise IndexError
  end.

(** [indicadores[key]]: a subscript, [KeyError] on an absent key. *)
Definition dict_item (indicadores : gmap string bool) (key : string) : res bool :=
  match indicadores !! key with
  | Some b => Ok b
  | None => Raise (KeyError key)
  end.

Definition variacion (data : DataFrame) : res fval :=
  let* c := getitem data "Precio" in
  let* precio_actual := iloc_last c in
  let* c := getitem data "Precio" in
  let* primero := iloc_first c in
  let* c := getitem data "Precio" in
  let* divisor := iloc_first c in
  Ok (fmul (fdiv (fsub precio_actual primero) divisor) (Fin 100)).

(** The two SMA metrics, read when the sma box is ticked. *)
Definition metricas_sma (data : DataFrame) (indicadores : gmap string bool)
  : res (option (fval * fval)) :=
  let* b := dict_item indicadores "sma" in
  if b then
    let* c := getitem data "SMA50" in
    let* sma50 := iloc_last c in
    let* c := getitem data "SMA200" in
    let* sma200 := iloc_last c in
    Ok (Some (sma50, sma200))
  else Ok None.

(** *** Charts (lines 140 to 143 and 168 to 195): the columns they read *)

(** Line 185: the colour of each bar of the MACD histogram. *)
Definition colores_macd (macd signal : Series) : list string :=
  map (fun v => if fgt v (Fin 0) then "green" else "red") (sub macd signal).

(** The price chart (lines 140 to 143). *)
Definition grafico_precios (data : DataFrame) (indicadores : gmap string bool)
  : res (list Series) :=
  let* precio := getitem data "Precio" in
  let* b := dict_item indicadores "sma" in
  if b then
    let* s50 := getitem data "SMA50" in
    let* s200 := getitem data "SMA200" in
    Ok [precio; s50; s200]
  else Ok [precio].

(** The three tabs (lines 168 to 195): the series drawn and the colours of
    the MACD bars. *)
Definition pestanas (data : DataFrame) (indicadores : gmap string bool)
  : res (list Series * option (list string)) :=
  let* b := dict_item indicadores "rsi" in
  let* rsis := (if b then let* r := getitem data "RSI" in Ok [r] else Ok []) in
  let* b := dict_item indicadores "macd" in
  let* macds :=
    (if b then let* m := getitem data "MACD" in
               let* s := getitem data "Signal" in
               let* m' := getitem data "MACD" in
               let* s' := getitem data "Signal" in
               Ok ([m; s], Some (colores_macd m' s'))
     else Ok ([], None)) in
  let* vols :=
    (if bool_decide (is_Some (df_cols data !! "Volumen"))
     then let* v := getitem data "Volumen" in Ok [v] else Ok []) in
  Ok (rsis ++ fst macds ++ vols, snd macds).

(** *** The script from the downloaded table on (lines 122 to 210)

    The rendering calls take the values computed here and return nothing
    the script uses; what is kept is every access to the table and to the
    flag dictionary, in the order of the script. *)
Record Informe : Type := mkInforme {
  inf_data : DataFrame;
  inf_variacion : fval;
  inf_sma : option (fval * fval);
  inf_colores : option (list string);
  inf_reco : Recomendacion;
  inf_clase : string
}.

Definition analizar (df : DataFrame) (sma rsi macd : bool)
  : res (option Informe) :=
  let indicadores := flags sma rsi macd in
  let* preparado := preparar_datos df in
  match preparado with
  | None => Ok None
  | Some data =>
      let* data := calcular_indicadores data indicadores in
      let* _ := grafico_precios data indicadores in
      let* v := variacion data in
      let* m := metricas_sma data indicadores in
      let* p := pestanas data indicadores in
      let* reco := generar_recomendacion data in
      let* clase := reco_clase (snd (fst reco)) in
      Ok (Some {| inf_data := data; inf_variacion := v; inf_sma := m;
                  inf_colores := snd p; inf_reco := reco; inf_clase := clase |})
  end.

(** A downloaded table of three rows with a Close and a Volume column. *)
Definition descarga_ejemplo : DataFrame :=
  {| df_index := [0; 1; 2]%Z;
     df_cols := {[ "Close" := [Fin 5; Fin 6; Fin 7];
                   "Volume" := [Fin 10; Fin 20; Fin 30] ]} |}.

(** The columns of the table prepared from a download with price column
    [s]. *)
Definition cols_preparado (df : DataFrame) (s : Series) : gmap string Series :=
  match df_cols df !! "Volume" with
  | Some v => <["Volumen" := v]> {[ "Precio" := s ]}
  | None => {[ "Precio" := s ]}
  end.

(** The table the script works on after the computation of the indicators,
    for a download [df] with price column [s] and the three boxes as
    ticked. *)
Definition tabla_calculada (df : DataFrame) (sma rsi macd : bool) (s : Series)
  : DataFrame :=
  {| df_index := df_index df;
     df_cols := cols_indicadores s (flags sma rsi macd) (cols_preparado df s) |}.
(** ** Facts about the float comparisons *)

Section Comparisons.

Lemma Qltb_lt (a b : Q) : Qltb a b = true <-> (a < b)%Q.
Proof.
  unfold Qltb. rewrite negb_true_iff. split.
  - intros H. apply Qnot_le_lt. intros Hle.
    apply Qle_bool_iff in Hle. congruence.
  - intros H. destruct (Qle_bool b a) eqn:E; [|reflexivity].
    apply Qle_bool_iff in E. exfalso. exact (Qlt_not_le _ _ H E).
Qed.

Lemma Qltb_ge (a b : Q) : Qltb a b = false <-> (b <= a)%Q.
Proof.
  unfold Qltb. rewrite negb_false_iff. apply Qle_bool_iff.
Qed.

Lemma fgt_Fin (a b : Q) : fgt (Fin a) (Fin b) = true <-> (b < a)%Q.
Proof. apply Qltb_lt. Qed.

Lemma flt_Fin (a b : Q) : flt (Fin a) (Fin b) = true <-> (a < b)%Q.
Proof. apply Qltb_lt. Qed.

(** Strict comparisons exclude each other. *)
Lemma fgt_asym (x y : fval) : fgt x y = true -> fgt y x = false.
Proof.
  destruct x as [a| | |], y as [b| | |]; simpl; try congruence.
  intros H. apply Qltb_lt in H. apply Qltb_ge. apply Qlt_le_weak, H.
Qed.

Lemma fgt_flt_excl (x y : fval) : fgt x y = true -> flt x y = false.
Proof. apply fgt_asym. Qed.

(** A tie fires neither comparison. *)
Lemma feq_no_gt (x y : fval) : feq x y -> fgt x y = false /\ flt x y = false.
Proof.
  destruct x as [a| | |], y as [b| | |]; simpl; try tauto.
  intros H. split; apply Qltb_ge; rewrite H; apply Qle_refl.
Qed.

(** A comparison with a missing value is false. *)
Lemma fgt_nan_l (y : fval) : fgt NaN y = false.
Proof. reflexivity. Qed.

Lemma fgt_nan_r (x : fval) : fgt x NaN = false.
Proof. destruct x; reflexivity. Qed.

End Comparisons.

(** ** Facts about the extraction of the latest values *)

Section Extraction.

Lemma ultimos_unfold (data : DataFrame) :
  ultimos data =
  (let* p := ultimo data "Precio" in
   let* sma50 := ultimo data "SMA50" in
   let* sma200 := ultimo data "SMA200" in
   let* rsi := ultimo data "RSI" in
   Ok (p, sma50, sma200, rsi)).
Proof.
  unfold ultimos, ultimo.
  destruct (getitem data "Precio"); simpl; [|reflexivity].
  destruct (iloc_last a); simpl; [|reflexivity].
  destruct (getitem data "SMA50"); simpl; [|reflexivity].
  destruct (iloc_last a1); simpl; [|reflexivity].
  destruct (getitem data "SMA200"); simpl; [|reflexivity].
  destruct (iloc_last a3); simpl; [|reflexivity].
  destruct (getitem data "RSI"); reflexivity.
Qed.

Lemma ultimos_Ok (data : DataFrame) (p sma50 sma200 rsi : fval) :
  ultimos data = Ok (p, sma50, sma200, rsi) <->
  ultimo data "Precio" = Ok p /\ ultimo data "SMA50" = Ok sma50 /\
  ultimo data "SMA200" = Ok sma200 /\ ultimo data "RSI" = Ok rsi.
Proof.
  rewrite ultimos_unfold.
  destruct (ultimo data "Precio"), (ultimo data "SMA50"),
    (ultimo data "SMA200"), (ultimo data "RSI"); simpl;
    split; try (intros (? & ? & ? & ?)); try intros ?; try congruence.
  repeat split; congruence.
Qed.

(** A column that is absent makes the extraction raise. *)
Lemma ultimo_absent (data : DataFrame) (col : string) :
  df_cols data !! col = None -> ultimo data col = Raise (KeyError col).
Proof. intros H. unfold ultimo, getitem. rewrite H. reflexivity. Qed.

(** A column without rows makes the extraction raise. *)
Lemma ultimo_empty (data : DataFrame) (col : string) :
  df_cols data !! col = Some [] -> ultimo data col = Raise IndexError.
Proof. intros H. unfold ultimo, getitem. rewrite H. reflexivity. Qed.

Lemma ultimo_Ok (data : DataFrame) (col : string) (v : fval) :
  ultimo data col = Ok v <->
  exists s, df_cols data !! col = Some s /\ last s = Some v.
Proof.
  unfold ultimo, getitem, iloc_last.
  destruct (df_cols data !! col) as [s|]; simpl.
  - destruct (last s) eqn:E; split.
    + intros [= ->]. eauto.
    + intros (s' & [= <-] & H). congruence.
    + discriminate.
    + intros (s' & [= <-] & H). congruence.
  - split; [discriminate | intros (s & ? & _); discriminate].
Qed.

(** The extraction raises exactly when one of the four columns is absent or
    has no rows. *)
Lemma ultimos_Raise (data : DataFrame) :
  (exists e, ultimos data = Raise e) <->
  exists col, In col ["Precio"; "SMA50"; "SMA200"; "RSI"] /\
              (df_cols data !! col = None \/ df_cols data !! col = Some []).
Proof.
  assert (Hu : forall col, (exists e, ultimo data col = Raise e) <->
             (df_cols data !! col = None \/ df_cols data !! col = Some [])).
  { intros col. unfold ultimo, getitem, iloc_last.
    destruct (df_cols data !! col) as [s|]; simpl.
    - destruct s as [|x s] using rev_ind.
      + split; eauto.
      + rewrite last_snoc. split.
        * intros [e He]. discriminate.
        * intros [H|H]; [discriminate|].
          injection H as H. destruct s; discriminate.
    - split; eauto. }
  rewrite ultimos_unfold. split.
  - intros [e He].
    destruct (ultimo data "Precio") eqn:E1; simpl in He;
      [|exists "Precio"; split; [simpl; tauto | apply Hu; eauto]].
    destruct (ultimo data "SMA50") eqn:E2; simpl in He;
      [|exists "SMA50"; split; [simpl; tauto | apply Hu; eauto]].
    destruct (ultimo data "SMA200") eqn:E3; simpl in He;
      [|exists "SMA200"; split; [simpl; tauto | apply Hu; eauto]].
    destruct (ultimo data "RSI") eqn:E4; simpl in He;
      [discriminate|exists "RSI"; split; [simpl; tauto | apply Hu; eauto]].
  - intros (col & Hin & Hc). apply Hu in Hc as [e He].
    destruct (ultimo data "Precio") eqn:E1; simpl; [|eauto].
    destruct (ultimo data "SMA50") eqn:E2; simpl; [|eauto].
    destruct (ultimo data "SMA200") eqn:E3; simpl; [|eauto].
    destruct (ultimo data "RSI") eqn:E4; simpl; [|eauto].
    simpl in Hin. destruct Hin as [<-|[<-|[<-|[<-|[]]]]]; congruence.
Qed.

End Extraction.

(** ** The recommendation *)

(** The 27 ways through the three [if]/[elif] statements. *)
Ltac rule_cases p sma50 sma200 rsi :=
  destruct (fgt p sma200 && fgt sma50 sma200);
    [|destruct (flt p sma200 && flt sma50 sma200)];
  (destruct (fgt sma50 sma200); [|destruct (flt sma50 sma200)]);
  (destruct (fgt rsi (Fin 70)); [|destruct (flt rsi (Fin 30))]).

Section Recommendation.

(** The function returns on every table: the bare [except] leaves no
    exception to escape. *)
Lemma generar_recomendacion_total (data : DataFrame) :
  exists r, generar_recomendacion data = Ok r.
Proof.
  unfold generar_recomendacion.
  destruct (ultimos data) as [[[[p sma50] sma200] rsi]|e]; eauto.
Qed.

(** When the four values are extracted, the scoring path runs on them. *)
Lemma generar_recomendacion_scoring (data : DataFrame) (p sma50 sma200 rsi : fval) :
  ultimos data = Ok (p, sma50, sma200, rsi) ->
  generar_recomendacion data = Ok (clasificar (puntuar p sma50 sma200 rsi)).
Proof. intros H. unfold generar_recomendacion. rewrite H. reflexivity. Qed.

(** The three rules, each applied to the reasons and score so far. *)
Lemma regla_tendencia_cases (p sma50 sma200 : fval) (cs : list string) (sc : Z) :
  regla_tendencia p sma50 sma200 (cs, sc) =
  if fgt p sma200 && fgt sma50 sma200 then (cs ++ [msg_alcista], sc + 1)%Z
  else if flt p sma200 && flt sma50 sma200 then (cs ++ [msg_bajista], sc - 1)%Z
  else (cs, sc).
Proof. reflexivity. Qed.

(** The two conditions of each rule group exclude each other. *)
Lemma tendencia_excl (p sma50 sma200 : fval) :
  fgt p sma200 && fgt sma50 sma200 = true ->
  flt p sma200 && flt sma50 sma200 = false.
Proof.
  intros H. apply andb_true_iff in H as [H1 H2].
  rewrite (fgt_flt_excl _ _ H1). reflexivity.
Qed.

Lemma rsi_excl (rsi : fval) :
  fgt rsi (Fin 70) = true -> flt rsi (Fin 30) = false.
Proof.
  destruct rsi as [q| | |]; simpl; try congruence.
  intros H. apply Qltb_lt in H. apply Qltb_ge.
  apply Qlt_le_weak. eapply Qlt_trans; [|exact H]. reflexivity.
Qed.

(** The code's threaded [if]/[elif] evaluation gives the table's reasons
    and score. *)
Lemma puntuar_tabla (p sma50 sma200 rsi : fval) :
  puntuar p sma50 sma200 rsi =
  (razones_tabla (tabla p sma50 sma200 rsi), score_tabla (tabla p sma50 sma200 rsi)).
Proof.
  unfold puntuar, regla_rsi, regla_cruce, regla_tendencia, tabla,
    razones_tabla, score_tabla.
  destruct (fgt p sma200 && fgt sma50 sma200) eqn:T1.
  - rewrite (tendencia_excl _ _ _ T1).
    apply andb_true_iff in T1 as [_ G]. rewrite G, (fgt_flt_excl _ _ G).
    destruct (fgt rsi (Fin 70)) eqn:R1.
    + rewrite (rsi_excl _ R1). reflexivity.
    + destruct (flt rsi (Fin 30)); reflexivity.
  - destruct (flt p sma200 && flt sma50 sma200) eqn:T2.
    + apply andb_true_iff in T2 as [_ D]. rewrite D.
      assert (G : fgt sma50 sma200 = false).
      { destruct (fgt sma50 sma200) eqn:G; [|reflexivity].
        rewrite (fgt_flt_excl _ _ G) in D. discriminate. }
      rewrite G.
      destruct (fgt rsi (Fin 70)) eqn:R1.
      * rewrite (rsi_excl _ R1). reflexivity.
      * destruct (flt rsi (Fin 30)); reflexivity.
    + destruct (fgt sma50 sma200) eqn:G.
      * rewrite (fgt_flt_excl _ _ G).
        destruct (fgt rsi (Fin 70)) eqn:R1.
        -- rewrite (rsi_excl _ R1). reflexivity.
        -- destruct (flt rsi (Fin 30)); reflexivity.
      * destruct (flt sma50 sma200) eqn:D.
        -- destruct (fgt rsi (Fin 70)) eqn:R1.
           ++ rewrite (rsi_excl _ R1). reflexivity.
           ++ destruct (flt rsi (Fin 30)); reflexivity.
        -- destruct (fgt rsi (Fin 70)) eqn:R1.
           ++ rewrite (rsi_excl _ R1). reflexivity.
           ++ destruct (flt rsi (Fin 30)); reflexivity.
Qed.

(** The label and class of the classification, by the score alone. *)
Lemma clasificar_cases (cs : list string) (sc : Z) :
  exists label clase,
    clasificar (cs, sc) = (label, clase, cs) /\
    ((label, clase) = ("COMPRA", "buy") <-> (2 <= sc)%Z) /\
    ((label, clase) = ("VENTA", "sell") <-> (sc <= -2)%Z) /\
    ((label, clase) = ("MANTENER", "hold") <-> (-2 < sc < 2)%Z).
Proof.
  unfold clasificar.
  destruct (2 <=? sc)%Z eqn:E1; [|destruct (sc <=? -2)%Z eqn:E2].
  - apply Z.leb_le in E1. eexists _, _. split; [reflexivity|].
    repeat split; intros; try discriminate; try lia.
  - apply Z.leb_gt in E1. apply Z.leb_le in E2.
    eexists _, _. split; [reflexivity|].
    repeat split; intros; try discriminate; try lia.
  - apply Z.leb_gt in E1. apply Z.leb_gt in E2.
    eexists _, _. split; [reflexivity|].
    repeat split; intros; try discriminate; try lia.
Qed.

(** Score and reasons of the scoring path: the score is between -3 and 3 in
    absolute value at most the number of reasons, which is at most 3. *)
Lemma puntuar_bounds (p sma50 sma200 rsi : fval) :
  let '(cs, sc) := puntuar p sma50 sma200 rsi in
  (Z.abs sc <= Z.of_nat (length cs))%Z /\ (length cs <= 3)%nat.
Proof.
  unfold puntuar, regla_rsi, regla_cruce, regla_tendencia.
  rule_cases p sma50 sma200 rsi;
    simpl; split; lia.
Qed.

End Recommendation.

(** ** Claims on the recommendation *)

(** C9: whenever extracting the latest Precio, SMA50, SMA200 or RSI raises,
    whatever the exception (a missing column, or a column without rows),
    [generar_recomendacion] does not raise: it returns MANTENER/hold with the
    single reason "Faltan indicadores para generar una recomendación.". *)
Theorem fallback_catches_every_exception (data : DataFrame) (e : exn) :
  ultimos data = Raise e ->
  generar_recomendacion data = Ok ("MANTENER", "hold", [msg_faltan]).
Proof. intros H. unfold generar_recomendacion. rewrite H. reflexivity. Qed.

(** The empty table raises [IndexError] at the first extraction, and gets
    the fallback. *)
Lemma fallback_catches_every_exception_witness :
  ultimos tabla_vacia = Raise IndexError /\
  generar_recomendacion tabla_vacia = Ok ("MANTENER", "hold", [msg_faltan]).
Proof.
  split; [reflexivity|].
  apply (fallback_catches_every_exception tabla_vacia IndexError).
  reflexivity.
Defined.

(** C2: on the scoring path the score starts at 0 and takes +1 for
    (Precio > SMA200 and SMA50 > SMA200), -1 for (Precio < SMA200 and
    SMA50 < SMA200), +1 for SMA50 > SMA200, -1 for SMA50 < SMA200, -1 for
    RSI > 70, +1 for RSI < 30; each condition that holds appends its reason
    in that order; an exact tie fires neither branch; the verdict is COMPRA
    iff score >= 2, VENTA iff score <= -2, MANTENER otherwise, and the
    reasons are returned as accumulated in each case. *)
Theorem scoring_follows_rule_table (data : DataFrame) (p sma50 sma200 rsi : fval) :
  ultimos data = Ok (p, sma50, sma200, rsi) ->
  is_nan p = false -> is_nan sma50 = false ->
  is_nan sma200 = false -> is_nan rsi = false ->
  let t := tabla p sma50 sma200 rsi in
  puntuar p sma50 sma200 rsi = (razones_tabla t, score_tabla t) /\
  (exists label clase,
     generar_recomendacion data = Ok (label, clase, razones_tabla t) /\
     ((label, clase) = ("COMPRA", "buy") <-> (2 <= score_tabla t)%Z) /\
     ((label, clase) = ("VENTA", "sell") <-> (score_tabla t <= -2)%Z) /\
     ((label, clase) = ("MANTENER", "hold") <-> (-2 < score_tabla t < 2)%Z)) /\
  (feq p sma200 ->
     fgt p sma200 && fgt sma50 sma200 = false /\
     flt p sma200 && flt sma50 sma200 = false) /\
  (feq sma50 sma200 ->
     fgt p sma200 && fgt sma50 sma200 = false /\
     flt p sma200 && flt sma50 sma200 = false /\
     fgt sma50 sma200 = false /\ flt sma50 sma200 = false) /\
  (feq rsi (Fin 70) \/ feq rsi (Fin 30) ->
     fgt rsi (Fin 70) = false /\ flt rsi (Fin 30) = false).
Proof.
  intros H _ _ _ _ t. subst t.
  split; [apply puntuar_tabla|]. split; [|split; [|split]].
  - rewrite (generar_recomendacion_scoring _ _ _ _ _ H), puntuar_tabla.
    destruct (clasificar_cases (razones_tabla (tabla p sma50 sma200 rsi))
                (score_tabla (tabla p sma50 sma200 rsi)))
      as (label & clase & Hc & Hi).
    exists label, clase. rewrite Hc. split; [reflexivity | exact Hi].
  - intros Ht. destruct (feq_no_gt _ _ Ht) as [-> ->]. split; reflexivity.
  - intros Ht. destruct (feq_no_gt _ _ Ht) as [-> ->].
    rewrite !andb_false_r. repeat split.
  - intros [Ht|Ht]; destruct (feq_no_gt _ _ Ht) as [H1 H2].
    + split; [exact H1|].
      destruct rsi as [q| | |]; simpl in *; try tauto.
      apply Qltb_ge. rewrite Ht. discriminate.
    + split; [|exact H2].
      destruct rsi as [q| | |]; simpl in *; try tauto.
      apply Qltb_ge. rewrite Ht. discriminate.
Qed.

(** Price 3 above SMA200 1, SMA50 2 above it too, RSI 50: two reasons, score
    2, COMPRA. *)
Lemma scoring_follows_rule_table_witness :
  generar_recomendacion (tabla_ultimos (Fin 3) (Fin 2) (Fin 1) (Fin 50)) =
    Ok ("COMPRA", "buy", [msg_alcista; msg_golden]).
Proof.
  destruct (scoring_follows_rule_table
              (tabla_ultimos (Fin 3) (Fin 2) (Fin 1) (Fin 50))
              (Fin 3) (Fin 2) (Fin 1) (Fin 50)
              eq_refl eq_refl eq_refl eq_refl eq_refl)
    as (_ & (label & clase & Hg & Hbuy & _) & _).
  rewrite Hg. destruct Hbuy as [_ Hbuy].
  rewrite (Hbuy ltac:(vm_compute; discriminate)). reflexivity.
Defined.

(** C10: on the scoring path the score lies in [-3, 3], at most one
    condition of each of the three rule groups fires, so that there are at
    most 3 reasons, and a COMPRA or VENTA verdict comes with at least 2
    reasons. *)
Theorem score_and_reasons_bounded (data : DataFrame) (p sma50 sma200 rsi : fval) :
  ultimos data = Ok (p, sma50, sma200, rsi) ->
  exists label clase cs sc,
    puntuar p sma50 sma200 rsi = (cs, sc) /\
    generar_recomendacion data = Ok (label, clase, cs) /\
    (-3 <= sc <= 3)%Z /\
    (length cs <= 3)%nat /\
    cs = razones_tabla (tabla p sma50 sma200 rsi) /\
    (fgt p sma200 && fgt sma50 sma200) && (flt p sma200 && flt sma50 sma200) = false /\
    fgt sma50 sma200 && flt sma50 sma200 = false /\
    fgt rsi (Fin 70) && flt rsi (Fin 30) = false /\
    (label = "COMPRA" \/ label = "VENTA" -> (2 <= length cs)%nat).
Proof.
  intros H.
  pose proof (puntuar_bounds p sma50 sma200 rsi) as Hb.
  pose proof (puntuar_tabla p sma50 sma200 rsi) as Ht.
  destruct (puntuar p sma50 sma200 rsi) as [cs sc] eqn:E.
  destruct Hb as [Habs Hlen].
  destruct (clasificar_cases cs sc) as (label & clase & Hc & Hbuy & Hsell & Hhold).
  exists label, clase, cs, sc.
  split; [reflexivity|].
  split; [rewrite (generar_recomendacion_scoring _ _ _ _ _ H), E, Hc; reflexivity|].
  split; [lia|]. split; [exact Hlen|].
  split; [congruence|].
  split; [destruct (fgt p sma200 && fgt sma50 sma200) eqn:T;
          [rewrite (tendencia_excl _ _ _ T)|]; reflexivity|].
  split; [destruct (fgt sma50 sma200) eqn:G;
          [rewrite (fgt_flt_excl _ _ G)|]; reflexivity|].
  split; [destruct (fgt rsi (Fin 70)) eqn:R;
          [rewrite (rsi_excl _ R)|]; reflexivity|].
  unfold clasificar in Hc.
  destruct (2 <=? sc)%Z eqn:E1; [|destruct (sc <=? -2)%Z eqn:E2].
  - apply Z.leb_le in E1. intros _. lia.
  - apply Z.leb_le in E2. intros _. lia.
  - injection Hc as <- <-. intros [?|?]; discriminate.
Qed.

(** Price 1 below SMA200 3, SMA50 2 below it too, RSI 80: three reasons,
    score -3, VENTA. *)
Lemma score_and_reasons_bounded_witness :
  exists label clase cs sc,
    puntuar (Fin 1) (Fin 2) (Fin 3) (Fin 80) = (cs, sc) /\
    generar_recomendacion (tabla_ultimos (Fin 1) (Fin 2) (Fin 3) (Fin 80)) =
      Ok (label, clase, cs) /\
    (-3 <= sc <= 3)%Z /\ (length cs <= 3)%nat.
Proof.
  destruct (score_and_reasons_bounded
              (tabla_ultimos (Fin 1) (Fin 2) (Fin 3) (Fin 80))
              (Fin 1) (Fin 2) (Fin 3) (Fin 80) eq_refl)
    as (label & clase & cs & sc & H1 & H2 & H3 & H4 & _).
  exists label, clase, cs, sc. auto.
Defined.

(** ** [calcular_indicadores] in closed form *)

Section Indicators.

Lemma getitem_setitem_ne (data : DataFrame) (c c' : string) (s : Series) :
  c <> c' -> getitem (setitem data c s) c' = getitem data c'.
Proof.
  intros Hne. unfold getitem, setitem. simpl.
  rewrite lookup_insert_ne by exact Hne. reflexivity.
Qed.

Lemma getitem_setitem_eq (data : DataFrame) (c : string) (s : Series) :
  getitem (setitem data c s) c = Ok s.
Proof. unfold getitem, setitem. simpl. rewrite lookup_insert_eq. reflexivity. Qed.

Lemma getitem_Some (data : DataFrame) (c : string) (s : Series) :
  df_cols data !! c = Some s -> getitem data c = Ok s.
Proof. intros H. unfold getitem. rewrite H. reflexivity. Qed.

Lemma calcular_sma_Ok (data : DataFrame) (precio : Series) :
  df_cols data !! "Precio" = Some precio ->
  calcular_sma data =
  Ok {| df_index := df_index data; df_cols := cols_sma precio (df_cols data) |}.
Proof.
  intros H. unfold calcular_sma.
  rewrite (getitem_Some _ _ _ H). simpl.
  rewrite getitem_setitem_ne by discriminate.
  rewrite (getitem_Some _ _ _ H). reflexivity.
Qed.

Lemma calcular_rsi_Ok (data : DataFrame) (precio : Series) :
  df_cols data !! "Precio" = Some precio ->
  calcular_rsi data =
  Ok {| df_index := df_index data; df_cols := cols_rsi precio (df_cols data) |}.
Proof.
  intros H. unfold calcular_rsi.
  rewrite (getitem_Some _ _ _ H). reflexivity.
Qed.

Lemma calcular_macd_Ok (data : DataFrame) (precio : Series) :
  df_cols data !! "Precio" = Some precio ->
  calcular_macd data =
  Ok {| df_index := df_index data; df_cols := cols_macd precio (df_cols data) |}.
Proof.
  intros H. unfold calcular_macd.
  rewrite (getitem_Some _ _ _ H). simpl.
  rewrite getitem_setitem_eq. reflexivity.
Qed.

Lemma cols_sma_precio (precio : Series) (cols : gmap string Series) :
  cols_sma precio cols !! "Precio" = cols !! "Precio".
Proof. unfold cols_sma. rewrite !lookup_insert_ne by discriminate. reflexivity. Qed.

Lemma cols_rsi_precio (precio : Series) (cols : gmap string Series) :
  cols_rsi precio cols !! "Precio" = cols !! "Precio".
Proof. unfold cols_rsi. rewrite !lookup_insert_ne by discriminate. reflexivity. Qed.

(** With a price column the computation returns, whatever the flags. *)
Lemma calcular_indicadores_Ok (data : DataFrame) (indicadores : gmap string bool)
    (precio : Series) :
  df_cols data !! "Precio" = Some precio ->
  calcular_indicadores data indicadores =
  Ok {| df_index := df_index data;
        df_cols := cols_indicadores precio indicadores (df_cols data) |}.
Proof.
  intros H. unfold calcular_indicadores, cols_indicadores.
  destruct data as [idx cols]. simpl in *.
  destruct (dict_get indicadores "sma").
  - rewrite (calcular_sma_Ok _ precio) by exact H. simpl.
    destruct (dict_get indicadores "rsi").
    + rewrite (calcular_rsi_Ok _ precio)
        by (simpl; rewrite cols_sma_precio; exact H). simpl.
      destruct (dict_get indicadores "macd"); [|reflexivity].
      rewrite (calcular_macd_Ok _ precio)
        by (simpl; rewrite cols_rsi_precio, cols_sma_precio; exact H).
      reflexivity.
    + simpl. destruct (dict_get indicadores "macd"); [|reflexivity].
      rewrite (calcular_macd_Ok _ precio)
        by (simpl; rewrite cols_sma_precio; exact H).
      reflexivity.
  - simpl. destruct (dict_get indicadores "rsi").
    + rewrite (calcular_rsi_Ok _ precio) by exact H. simpl.
      destruct (dict_get indicadores "macd"); [|reflexivity].
      rewrite (calcular_macd_Ok _ precio)
        by (simpl; rewrite cols_rsi_precio; exact H).
      reflexivity.
    + simpl. destruct (dict_get indicadores "macd"); [|reflexivity].
      rewrite (calcular_macd_Ok _ precio) by exact H.
      reflexivity.
Qed.

(** A column that is not a derived one is left as it was. *)
Lemma cols_indicadores_other (precio : Series) (indicadores : gmap string bool)
    (cols : gmap string Series) (col : string) :
  ~ In col derivadas ->
  cols_indicadores precio indicadores cols !! col = cols !! col.
Proof.
  intros Hn. unfold derivadas in Hn. simpl in Hn.
  unfold cols_indicadores, cols_sma, cols_rsi, cols_macd.
  destruct (dict_get indicadores "sma"), (dict_get indicadores "rsi"),
    (dict_get indicadores "macd");
    rewrite ?lookup_insert_ne by (intros <-; tauto); reflexivity.
Qed.

(** A derived column after the computation: case on the three flags and
    read the inserts. *)
Ltac cols_lookup :=
  unfold cols_indicadores, cols_sma, cols_rsi, cols_macd;
  repeat match goal with
         | |- context [dict_get ?d ?k] => destruct (dict_get d k)
         end;
  rewrite ?lookup_insert_ne by discriminate;
  rewrite ?lookup_insert_eq; reflexivity.

(** The derived columns, by flag. *)
Lemma cols_indicadores_sma50 (precio : Series) (indicadores : gmap string bool)
    (cols : gmap string Series) :
  cols_indicadores precio indicadores cols !! "SMA50" =
  if dict_get indicadores "sma" then Some (rolling_mean 50 precio)
  else cols !! "SMA50".
Proof.
  cols_lookup.
Qed.

Lemma cols_indicadores_sma200 (precio : Series) (indicadores : gmap string bool)
    (cols : gmap string Series) :
  cols_indicadores precio indicadores cols !! "SMA200" =
  if dict_get indicadores "sma" then Some (rolling_mean 200 precio)
  else cols !! "SMA200".
Proof.
  cols_lookup.
Qed.

Lemma cols_indicadores_rsi (precio : Series) (indicadores : gmap string bool)
    (cols : gmap string Series) :
  cols_indicadores precio indicadores cols !! "RSI" =
  if dict_get indicadores "rsi" then Some (rsi_of precio)
  else cols !! "RSI".
Proof.
  cols_lookup.
Qed.

Lemma cols_indicadores_macd (precio : Series) (indicadores : gmap string bool)
    (cols : gmap string Series) :
  cols_indicadores precio indicadores cols !! "MACD" =
  if dict_get indicadores "macd" then Some (macd_of precio)
  else cols !! "MACD".
Proof.
  cols_lookup.
Qed.

Lemma cols_indicadores_signal (precio : Series) (indicadores : gmap string bool)
    (cols : gmap string Series) :
  cols_indicadores precio indicadores cols !! "Signal" =
  if dict_get indicadores "macd" then Some (ewm_mean 9 (macd_of precio))
  else cols !! "Signal".
Proof.
  cols_lookup.
Qed.

End Indicators.

(** ** Missing indicators *)

(** A latest value that is NaN raises nothing: with the four columns there
    and not empty, the scoring rules run, and every comparison with the NaN
    is false. *)
Lemma nan_latest_runs_scoring (data : DataFrame) (p sma50 sma200 rsi : fval) :
  ultimos data = Ok (p, sma50, sma200, rsi) ->
  generar_recomendacion data = Ok (clasificar (puntuar p sma50 sma200 rsi)) /\
  generar_recomendacion data <> Ok ("MANTENER", "hold", [msg_faltan]).
Proof.
  intros H. rewrite (generar_recomendacion_scoring _ _ _ _ _ H).
  split; [reflexivity|].
  unfold puntuar, regla_rsi, regla_cruce, regla_tendencia, clasificar.
  rule_cases p sma50 sma200 rsi;
    simpl; intros [=].
Qed.

(** C1, as stated, fails: ten prices 1..10 with the sma and rsi flags set.
    The four columns exist, the latest SMA50, SMA200 and RSI are NaN, and the
    function returns MANTENER/hold with no reason at all, not with the
    insufficient-indicators message. *)
Lemma short_series_no_fallback_counterexample :
  exists data,
    calcular_indicadores (tabla_precios (precios_rampa 10)) (flags true true false)
      = Ok data /\
    ultimos data = Ok (Fin 10, NaN, NaN, NaN) /\
    generar_recomendacion data = Ok ("MANTENER", "hold", []) /\
    generar_recomendacion data <> Ok ("MANTENER", "hold", [msg_faltan]).
Proof.
  eexists. split; [vm_compute; reflexivity|].
  split; [vm_compute; reflexivity|].
  split; [vm_compute; reflexivity|].
  vm_compute. intros [=].
Qed.

(** With a NaN among the latest values the verdict need not even be
    MANTENER: 150 prices at 1 then 100 prices at 2 leave the latest RSI
    undefined (no price change in the last 14 periods) while the trend and
    cross rules give COMPRA. *)
Lemma undefined_rsi_can_give_compra :
  exists data,
    calcular_indicadores (tabla_precios (precios_escalon 150 100))
      (flags true true false) = Ok data /\
    ultimo data "RSI" = Ok NaN /\
    generar_recomendacion data = Ok ("COMPRA", "buy", [msg_alcista; msg_golden]).
Proof.
  eexists. split; [vm_compute; reflexivity|].
  split; vm_compute; reflexivity.
Qed.

(** C1 (amended): when one of the four columns Precio, SMA50, SMA200, RSI
    is absent (it was not computed), [generar_recomendacion] returns
    MANTENER/hold with exactly one reason, the insufficient-indicators
    message; in particular this is what a price series gets when it is
    computed with the sma flag set and the rsi flag not set, whatever its
    length. *)
Theorem absent_column_gives_fallback :
  (forall (data : DataFrame) (col : string),
     In col ["Precio"; "SMA50"; "SMA200"; "RSI"] ->
     df_cols data !! col = None ->
     generar_recomendacion data = Ok ("MANTENER", "hold", [msg_faltan])) /\
  (forall (data : DataFrame) (precio : Series) (indicadores : gmap string bool),
     df_cols data !! "Precio" = Some precio ->
     df_cols data !! "RSI" = None ->
     dict_get indicadores "sma" = true ->
     dict_get indicadores "rsi" = false ->
     exists data',
       calcular_indicadores data indicadores = Ok data' /\
       generar_recomendacion data' = Ok ("MANTENER", "hold", [msg_faltan])).
Proof.
  assert (A : forall (data : DataFrame) (col : string),
     In col ["Precio"; "SMA50"; "SMA200"; "RSI"] ->
     df_cols data !! col = None ->
     generar_recomendacion data = Ok ("MANTENER", "hold", [msg_faltan])).
  { intros data col Hin Hc.
    destruct (proj2 (ultimos_Raise data)) as [e He]; [eauto|].
    unfold generar_recomendacion. rewrite He. reflexivity. }
  split; [exact A|].
  intros data precio indicadores Hp Hr Hs Hn.
  eexists. split; [apply (calcular_indicadores_Ok _ _ _ Hp)|].
  apply (A _ "RSI"); [simpl; tauto|]. simpl.
  rewrite cols_indicadores_rsi, Hn. exact Hr.
Qed.

(** Ten prices 1..10 with the sma flag alone. *)
Lemma absent_column_gives_fallback_witness :
  exists data',
    calcular_indicadores (tabla_precios (precios_rampa 10)) (flags true false false)
      = Ok data' /\
    generar_recomendacion data' = Ok ("MANTENER", "hold", [msg_faltan]).
Proof.
  apply (proj2 absent_column_gives_fallback
           (tabla_precios (precios_rampa 10)) (precios_rampa 10)
           (flags true false false));
    reflexivity.
Defined.

(** ** Rolling means *)

Section Rolling.

Lemma map_fmap {A B : Type} (f : A -> B) (l : list A) : map f l = f <$> l.
Proof. reflexivity. Qed.

Lemma rolling_mean_length (n : nat) (s : Series) :
  length (rolling_mean n s) = length s.
Proof. unfold rolling_mean. rewrite length_map, length_seq. reflexivity. Qed.

Lemma rolling_mean_lookup (n i : nat) (s : Series) :
  (i < length s)%nat ->
  rolling_mean n s !! i = Some (window_mean n (window n i (map inf_to_nan s))).
Proof.
  intros Hi. unfold rolling_mean.
  rewrite (map_fmap _ (seq 0 (length s))), list_lookup_fmap,
    lookup_seq_lt by exact Hi.
  reflexivity.
Qed.

Lemma window_length (n i : nat) (s : Series) :
  (i < length s)%nat -> length (window n i s) = Nat.min (S i) n.
Proof.
  intros Hi. unfold window. rewrite length_drop, length_take. lia.
Qed.


Lemma filter_length_le {A : Type} (f : A -> bool) (l : list A) :
  (length (List.filter f l) <= length l)%nat.
Proof.
  induction l as [|x l IH]; simpl; [lia|]. destruct (f x); simpl; lia.
Qed.

Lemma filter_all {A : Type} (f : A -> bool) (l : list A) :
  Forall (fun x => f x = true) l -> List.filter f l = l.
Proof.
  induction 1 as [|x l Hx _ IH]; simpl; [reflexivity|].
  rewrite Hx, IH. reflexivity.
Qed.

(** Fewer values than [min_periods]: the mean is missing. *)
Lemma window_mean_short (minp : nat) (w : Series) :
  (length w < minp)%nat -> window_mean minp w = NaN.
Proof.
  intros H. unfold window_mean.
  pose proof (filter_length_le is_finite w) as Hf.
  destruct (minp <=? length (List.filter is_finite w))%nat eqn:E.
  - apply Nat.leb_le in E. lia.
  - reflexivity.
Qed.

(** One missing value in the window: the mean is missing. *)
Lemma window_mean_missing (minp : nat) (w : Series) :
  (length w <= minp)%nat -> Exists (fun x => is_finite x = false) w ->
  window_mean minp w = NaN.
Proof.
  intros Hl Hex. unfold window_mean.
  assert (Hf : (length (List.filter is_finite w) < length w)%nat).
  { clear Hl. induction Hex as [x l Hx|x l _ IH]; simpl.
    - rewrite Hx. pose proof (filter_length_le is_finite l). lia.
    - destruct (is_finite x); simpl; [lia|].
      pose proof (filter_length_le is_finite l). lia. }
  destruct (minp <=? length (List.filter is_finite w))%nat eqn:E.
  - apply Nat.leb_le in E. lia.
  - reflexivity.
Qed.

(** A full window of finite values: the mean is their sum over their
    number. *)
Lemma window_mean_full (minp : nat) (w : Series) :
  (0 < minp)%nat -> length w = minp ->
  Forall (fun x => is_finite x = true) w ->
  window_mean minp w = Fin (Qsum (map q_of w) / inject_Z (Z.of_nat minp)).
Proof.
  intros Hp Hl Hf. unfold window_mean.
  rewrite (filter_all _ _ Hf), Hl, Nat.leb_refl.
  destruct (0 <? minp)%nat eqn:E; [reflexivity|].
  apply Nat.ltb_ge in E. lia.
Qed.

(** The mean is missing or finite, never infinite; when finite, the window
    is full of finite values. *)
Lemma window_mean_cases (minp : nat) (w : Series) :
  (length w <= minp)%nat ->
  window_mean minp w = NaN \/
  ((0 < minp)%nat /\ length w = minp /\ Forall (fun x => is_finite x = true) w /\
   window_mean minp w = Fin (Qsum (map q_of w) / inject_Z (Z.of_nat minp))).
Proof.
  intros Hl.
  destruct (decide (length w < minp)%nat) as [Hs|Hs].
  { left. apply window_mean_short, Hs. }
  assert (Hlen : length w = minp) by lia.
  destruct (decide (Forall (fun x => is_finite x = true) w)) as [Hf|Hf].
  - destruct (decide (0 < minp)%nat) as [Hp|Hp].
    + right. repeat split; try assumption. apply window_mean_full; assumption.
    + left. unfold window_mean.
      destruct w; [|simpl in Hlen; lia]. simpl.
      rewrite andb_false_r. reflexivity.
  - left. apply window_mean_missing; [lia|].
    apply not_Forall_Exists in Hf; [|intros x; apply _].
    eapply Exists_impl; [exact Hf|]. simpl. intros x Hx.
    destruct (is_finite x); congruence.
Qed.

End Rolling.

(** ** Simple moving averages *)

Section SMA.


(** Before the window is full the value is missing, whatever the prices. *)
Lemma rolling_mean_before (n i : nat) (s : Series) :
  (S i < n)%nat -> (i < length s)%nat -> rolling_mean n s !! i = Some NaN.
Proof.
  intros Hn Hi. rewrite rolling_mean_lookup by exact Hi.
  rewrite window_mean_short; [reflexivity|].
  rewrite window_length by (rewrite length_map; exact Hi). lia.
Qed.




End SMA.


(** ** Exponential averages *)

Section EMA.

Lemma Qeq_bool_false (a b : Q) : ~ (a == b)%Q -> Qeq_bool a b = false.
Proof.
  intros H. destruct (Qeq_bool a b) eqn:E; [|reflexivity].
  apply Qeq_bool_iff in E. contradiction.
Qed.

Lemma Qeq_bool_true (a b : Q) : (a == b)%Q -> Qeq_bool a b = true.
Proof. apply Qeq_bool_iff. Qed.

(** One step of the pandas loop on finite values with a carried weight of
    1 is one step of the recursion. *)
Lemma ewm_step_finite (alpha w w' x : Q) :
  (w == w')%Q ->
  exists e, ewm_step alpha (Fin w) 1 (Fin x) = (Fin e, 1%Q) /\
            (e == alpha * x + (1 - alpha) * w')%Q.
Proof.
  intros Hw. unfold ewm_step. simpl.
  destruct (Qeq_bool w x) eqn:E; simpl.
  - apply Qeq_bool_iff in E. exists w. split; [reflexivity|].
    rewrite <- Hw, <- E. ring.
  - assert (D : (1 * (1 - alpha) + alpha == 1)%Q) by ring.
    rewrite (Qeq_bool_false (1 * (1 - alpha) + alpha) 0)
      by (rewrite D; discriminate).
    eexists. split; [reflexivity|].
    rewrite D, <- Hw. field.
Qed.

Lemma ewm_loop_finite (alpha : Q) (qs : list Q) :
  forall w w', (w == w')%Q ->
  Forall2 feq (ewm_loop alpha (Fin w) 1 (map Fin qs))
              (map Fin (ema_rec alpha w' qs)).
Proof.
  induction qs as [|x qs IH]; intros w w' Hw; [constructor|].
  cbn [ewm_loop map ema_rec].
  destruct (ewm_step_finite alpha w w' x Hw) as (e & -> & He).
  constructor; [exact He|]. apply IH, He.
Qed.

(** The pandas exponential average of a series of finite values follows the
    recursion seeded with the first value. *)
Lemma ewm_mean_finite (span : Z) (qs : list Q) :
  Forall2 feq (ewm_mean span (map Fin qs))
              (map Fin (ema_spec (alpha_of_span span) qs)).
Proof.
  destruct qs as [|x0 qs]; simpl; [constructor|].
  constructor; [simpl; reflexivity|].
  apply ewm_loop_finite. reflexivity.
Qed.

(** A column that is pointwise a finite value holds finite values only. *)
Lemma feq_Fin_inv (l : Series) (qs : list Q) :
  Forall2 feq l (map Fin qs) ->
  l = map Fin (map q_of l) /\ Forall2 Qeq (map q_of l) qs.
Proof.
  revert qs. induction l as [|x l IH]; intros qs H.
  - destruct qs; inversion H. split; constructor.
  - destruct qs as [|q qs]; inversion H as [|? ? ? ? Hx Hl]; subst.
    destruct (IH _ Hl) as [E1 E2]. simpl.
    destruct x as [a| | |]; simpl in Hx; try contradiction.
    split; [f_equal; exact E1 | constructor; assumption].
Qed.

Lemma sub_finite (a b : Series) (qa qb : list Q) :
  Forall2 feq a (map Fin qa) -> Forall2 feq b (map Fin qb) ->
  Forall2 feq (sub a b) (map Fin (zip_with Qminus qa qb)).
Proof.
  revert b qa qb. induction a as [|x a IH]; intros b qa qb Ha Hb.
  - destruct qa; inversion Ha. simpl. constructor.
  - destruct qa as [|p qa]; inversion Ha as [|? ? ? ? Hx Hl]; subst.
    destruct b as [|y b].
    + destruct qb; inversion Hb. simpl. constructor.
    + destruct qb as [|q qb]; inversion Hb as [|? ? ? ? Hy Hk]; subst.
      simpl. constructor; [|apply IH; assumption].
      destruct x as [u| | |], y as [v| | |]; simpl in *; try contradiction.
      rewrite Hx, Hy. reflexivity.
Qed.

End EMA.

(** ** The RSI *)

Section RSI.

Lemma diff_length (s : Series) : length (diff s) = length s.
Proof.
  destruct s as [|x tl]; [reflexivity|]. unfold diff.
  cbn [length]. rewrite length_zip_with. simpl. lia.
Qed.

(** [s.where(cond(s), other)] elementwise. *)
Lemma where_map (s : Series) (g : fval -> bool) (other : fval) :
  where_ s (map g s) other = map (fun v => if g v then v else other) s.
Proof.
  unfold where_. induction s as [|x s IH]; simpl; [reflexivity|].
  rewrite IH. reflexivity.
Qed.

Lemma gain_elem (d : fval) :
  nonneg_or_nan (inf_to_nan (if fgt d (Fin 0) then d else Fin 0)).
Proof.
  destruct d as [q| | |]; simpl; try discriminate; trivial.
  destruct (Qltb 0 q) eqn:E; simpl; [|discriminate].
  apply Qltb_lt in E. apply Qlt_le_weak, E.
Qed.


Lemma Qsum_nonneg (l : list Q) :
  Forall (fun q => (0 <= q)%Q) l -> (0 <= Qsum l)%Q.
Proof.
  induction 1 as [|q l Hq _ IH]; simpl; [discriminate|]. lra.
Qed.

(** The rolling mean of non-negative values is missing or a non-negative
    number, never an infinity. *)
Lemma rolling_mean_nonneg (n i : nat) (s : Series) (v : fval) :
  Forall nonneg_or_nan (map inf_to_nan s) ->
  rolling_mean n s !! i = Some v -> nonneg_or_nan v.
Proof.
  intros Hs Hv.
  assert (Hi : (i < length s)%nat).
  { apply lookup_lt_Some in Hv. rewrite rolling_mean_length in Hv. exact Hv. }
  rewrite rolling_mean_lookup in Hv by exact Hi. injection Hv as <-.
  destruct (window_mean_cases n (window n i (map inf_to_nan s)))
    as [->|(Hp & _ & Hf & ->)].
  - rewrite window_length by (rewrite length_map; exact Hi). lia.
  - exact I.
  - simpl. apply Qle_shift_div_l.
    + change 0%Q with (inject_Z 0). rewrite <- Zlt_Qlt. lia.
    + rewrite Qmult_0_l. apply Qsum_nonneg.
      assert (Hw : Forall nonneg_or_nan (window n i (map inf_to_nan s)))
        by (unfold window; apply Forall_drop, Forall_take, Hs).
      rewrite map_fmap. apply Forall_fmap.
      eapply Forall_impl; [exact Hw|]. simpl.
      intros x Hx. destruct x; simpl in *; try contradiction; [exact Hx|discriminate].
Qed.

Lemma avg_gain_length (precio : Series) : length (avg_gain precio) = length precio.
Proof.
  unfold avg_gain, gt_scalar. rewrite rolling_mean_length, where_map, length_map.
  apply diff_length.
Qed.

Lemma avg_loss_length (precio : Series) : length (avg_loss precio) = length precio.
Proof.
  unfold avg_loss, lt_scalar, neg.
  rewrite rolling_mean_length, where_map, !length_map.
  apply diff_length.
Qed.

Lemma avg_gain_nonneg (precio : Series) (i : nat) (v : fval) :
  avg_gain precio !! i = Some v -> nonneg_or_nan v.
Proof.
  unfold avg_gain, gt_scalar. rewrite where_map.
  apply rolling_mean_nonneg.
  rewrite !map_fmap. apply Forall_fmap, Forall_fmap, Forall_forall.
  intros d _. apply gain_elem.
Qed.


(** The RSI column at [i] is [rsi_valor] of the two averages at [i]. *)
Lemma rsi_of_lookup (precio : Series) (i : nat) :
  rsi_of precio !! i =
  match avg_gain precio !! i, avg_loss precio !! i with
  | Some g, Some l => Some (rsi_valor g l)
  | _, _ => None
  end.
Proof.
  unfold rsi_of, scalar_sub, scalar_div, scalar_add, div.
  rewrite !map_fmap, !list_lookup_fmap, lookup_zip_with.
  destruct (avg_gain precio !! i) as [g|]; simpl; [|reflexivity].
  destruct (avg_loss precio !! i) as [l|]; reflexivity.
Qed.

Lemma rsi_of_length (precio : Series) : length (rsi_of precio) = length precio.
Proof.
  unfold rsi_of, scalar_sub, scalar_div, scalar_add, div.
  rewrite !length_map, length_zip_with, avg_gain_length, avg_loss_length. lia.
Qed.




(** Average loss 0: the RSI is 100 when the average gain is positive and
    missing when it is 0 too. *)
Lemma rsi_valor_zero_loss (a b : Q) :
  (b == 0)%Q -> (0 <= a)%Q ->
  rsi_valor (Fin a) (Fin b) = if fgt (Fin a) (Fin 0) then Fin 100 else NaN.
Proof.
  intros Hb Ha. unfold rsi_valor. simpl.
  rewrite (Qeq_bool_true _ _ Hb).
  destruct (Qltb 0 a) eqn:E.
  - apply Qltb_lt in E.
    rewrite (Qeq_bool_false a 0) by (intros H; rewrite H in E; discriminate).
    reflexivity.
  - apply Qltb_ge in E.
    rewrite (Qeq_bool_true a 0) by (apply Qle_antisym; assumption).
    reflexivity.
Qed.


(** The first difference does not exist and counts as a zero gain and a zero
    loss: with 14 prices 1..14 the RSI at index 13 is already defined. *)
Lemma rsi_defined_at_index_13 :
  rsi_of (precios_rampa 14) !! 13%nat = Some (Fin 100).
Proof. vm_compute. reflexivity. Qed.

End RSI.

(** ** Claims on the RSI *)



(** C3, as stated, fails: on 15 prices all at 100 the 14-period average
    loss at index 14 is 0 and the RSI there is NaN (0/0), not 100. *)
Lemma flat_prices_rsi_nan_counterexample :
  avg_loss (precios_planos 15) !! 14%nat = Some (Fin (0 # 14)) /\
  (0 # 14 == 0)%Q /\
  rsi_of (precios_planos 15) !! 14%nat = Some NaN /\
  rsi_of (precios_planos 15) !! 14%nat <> Some (Fin 100).
Proof.
  split; [vm_compute; reflexivity|].
  split; [reflexivity|].
  split; [vm_compute; reflexivity|].
  vm_compute. discriminate.
Qed.

(** C3 (amended): the RSI computation raises no error; at an index where
    the 14-period average loss is 0, the RSI is exactly 100 when the
    14-period average gain there is positive, and NaN otherwise (the average
    gain is 0 too, or missing). *)
Theorem rsi_at_zero_avg_loss (data : DataFrame) (indicadores : gmap string bool)
    (precio : Series) (i : nat) (l : Q) :
  df_cols data !! "Precio" = Some precio ->
  dict_get indicadores "rsi" = true ->
  avg_loss precio !! i = Some (Fin l) ->
  (l == 0)%Q ->
  exists data' rsi g,
    calcular_indicadores data indicadores = Ok data' /\
    df_cols data' !! "RSI" = Some rsi /\
    avg_gain precio !! i = Some g /\
    rsi !! i = Some (if fgt g (Fin 0) then Fin 100 else NaN).
Proof.
  intros Hp Hr Hl H0.
  destruct (lookup_lt_is_Some_2 (avg_gain precio) i) as [g Hg].
  { rewrite avg_gain_length, <- (avg_loss_length precio).
    eapply lookup_lt_Some, Hl. }
  eexists _, (rsi_of precio), g.
  split; [apply (calcular_indicadores_Ok _ _ _ Hp)|]. simpl.
  rewrite cols_indicadores_rsi, Hr. split; [reflexivity|].
  split; [exact Hg|].
  rewrite rsi_of_lookup, Hg, Hl. f_equal.
  pose proof (avg_gain_nonneg _ _ _ Hg) as Hn.
  destruct g as [a| | |]; simpl in Hn; try contradiction.
  - apply rsi_valor_zero_loss; assumption.
  - reflexivity.
Qed.

(** Prices 1..15: the average loss at index 14 is 0, the average gain is
    positive, the RSI is 100. *)
Lemma rsi_at_zero_avg_loss_witness :
  exists data' rsi,
    calcular_indicadores (tabla_precios (precios_rampa 15)) (flags false true false)
      = Ok data' /\
    df_cols data' !! "RSI" = Some rsi /\
    rsi !! 14%nat = Some (Fin 100).
Proof.
  destruct (rsi_at_zero_avg_loss (tabla_precios (precios_rampa 15))
              (flags false true false) (precios_rampa 15) 14 (0 # 14)
              eq_refl eq_refl)
    as (data' & rsi & g & H1 & H2 & H3 & H4).
  - vm_compute. reflexivity.
  - reflexivity.
  - exists data', rsi. split; [exact H1|]. split; [exact H2|].
    rewrite H4.
    assert (E : avg_gain (precios_rampa 15) !! 14%nat = Some (Fin (14 # 14)))
      by (vm_compute; reflexivity).
    rewrite E in H3. injection H3 as <-. reflexivity.
Defined.

(** ** Claims on the exponential averages *)

Section MACD.

Lemma ewm_loop_length (alpha : Q) (vals : Series) :
  forall weighted old_wt,
  length (ewm_loop alpha weighted old_wt vals) = length vals.
Proof.
  induction vals as [|cur rest IH]; intros weighted old_wt; [reflexivity|].
  cbn [ewm_loop]. destruct (ewm_step alpha weighted old_wt cur) as [w o].
  simpl. rewrite IH. reflexivity.
Qed.

Lemma ewm_mean_length (span : Z) (s : Series) :
  length (ewm_mean span s) = length s.
Proof.
  destruct s as [|x0 rest]; [reflexivity|]. simpl.
  rewrite ewm_loop_length. reflexivity.
Qed.

Lemma macd_of_length (precio : Series) : length (macd_of precio) = length precio.
Proof.
  unfold macd_of, sub. rewrite length_zip_with, !ewm_mean_length. lia.
Qed.

(** The first value of an exponential average is the first observation. *)
Lemma ewm_mean_head (span : Z) (s : Series) : ewm_mean span s !! 0%nat = s !! 0%nat.
Proof. destruct s; reflexivity. Qed.

End MACD.

(** C6, as stated, fails on a series with a missing price: with prices
    [NaN; 3] the first MACD value is NaN, not 0; and with prices [1; NaN; 4]
    the 12-period average at index 1 is 1, carried over, where the recursion
    [alpha * price + (1 - alpha) * ema] gives NaN. *)
Lemma macd_missing_price_counterexample :
  (exists data macd,
     calcular_indicadores (tabla_precios [NaN; Fin 3]) (flags false false true)
       = Ok data /\
     df_cols data !! "MACD" = Some macd /\
     macd !! 0%nat = Some NaN /\ ~ feq NaN (Fin 0)) /\
  ewm_mean 12 [Fin 1; NaN; Fin 4] !! 1%nat = Some (Fin 1) /\
  fadd (fmul (Fin (alpha_of_span 12)) NaN)
       (fmul (Fin (1 - alpha_of_span 12)) (Fin 1)) = NaN.
Proof.
  split; [|split; reflexivity].
  eexists _, _. split; [vm_compute; reflexivity|].
  split; [vm_compute; reflexivity|].
  split; [reflexivity|]. simpl. tauto.
Qed.

(** C6 (amended): for a non-empty price series whose prices are all finite
    numbers, computed with the macd flag set, MACD is EMA12 - EMA26 where
    each EMA follows [ema[0] = price[0]],
    [ema[i] = alpha * price[i] + (1 - alpha) * ema[i-1]] with
    [alpha = 2 / (N + 1)], Signal follows the same recursion on MACD with
    N = 9, MACD[0] = 0 and Signal[0] = MACD[0]. *)
Theorem macd_follows_ema_recursion (data : DataFrame)
    (indicadores : gmap string bool) (qs : list Q) :
  df_cols data !! "Precio" = Some (map Fin qs) ->
  qs <> [] ->
  dict_get indicadores "macd" = true ->
  exists data' macd signal ms,
    calcular_indicadores data indicadores = Ok data' /\
    df_cols data' !! "MACD" = Some macd /\
    df_cols data' !! "Signal" = Some signal /\
    macd = sub (ewm_mean 12 (map Fin qs)) (ewm_mean 26 (map Fin qs)) /\
    Forall2 feq (ewm_mean 12 (map Fin qs))
                (map Fin (ema_spec (2 / (inject_Z 12 + 1)) qs)) /\
    Forall2 feq (ewm_mean 26 (map Fin qs))
                (map Fin (ema_spec (2 / (inject_Z 26 + 1)) qs)) /\
    Forall2 feq macd
      (map Fin (zip_with Qminus (ema_spec (2 / (inject_Z 12 + 1)) qs)
                                (ema_spec (2 / (inject_Z 26 + 1)) qs))) /\
    macd = map Fin ms /\
    Forall2 feq signal (map Fin (ema_spec (2 / (inject_Z 9 + 1)) ms)) /\
    exists m0, macd !! 0%nat = Some (Fin m0) /\ (m0 == 0)%Q /\
               signal !! 0%nat = Some (Fin m0).
Proof.
  intros Hp Hne Hm.
  pose proof (ewm_mean_finite 12 qs) as H12.
  pose proof (ewm_mean_finite 26 qs) as H26.
  pose proof (sub_finite _ _ _ _ H12 H26) as Hsub.
  destruct (feq_Fin_inv _ _ Hsub) as [Hms _].
  fold (macd_of (map Fin qs)) in Hms, Hsub.
  eexists _, (macd_of (map Fin qs)), (ewm_mean 9 (macd_of (map Fin qs))),
    (map q_of (macd_of (map Fin qs))).
  split; [apply (calcular_indicadores_Ok _ _ _ Hp)|]. simpl.
  rewrite cols_indicadores_macd, cols_indicadores_signal, Hm.
  split; [reflexivity|]. split; [reflexivity|]. split; [reflexivity|].
  split; [exact H12|]. split; [exact H26|]. split; [exact Hsub|].
  split; [exact Hms|].
  split; [rewrite Hms at 1; apply ewm_mean_finite|].
  destruct qs as [|x0 qs]; [contradiction|].
  exists (x0 + - x0)%Q. split; [reflexivity|]. split; [ring|].
  rewrite ewm_mean_head. reflexivity.
Qed.

(** Prices 1, 2, 3 with the macd flag. *)
Lemma macd_follows_ema_recursion_witness :
  exists data' macd signal,
    calcular_indicadores (tabla_precios (map Fin [1; 2; 3]%Q))
      (flags false false true) = Ok data' /\
    df_cols data' !! "MACD" = Some macd /\
    df_cols data' !! "Signal" = Some signal /\
    exists m0, macd !! 0%nat = Some (Fin m0) /\ (m0 == 0)%Q /\
               signal !! 0%nat = Some (Fin m0).
Proof.
  destruct (macd_follows_ema_recursion
              (tabla_precios (map Fin [1; 2; 3]%Q)) (flags false false true)
              [1; 2; 3]%Q eq_refl ltac:(discriminate) eq_refl)
    as (data' & macd & signal & ms & H1 & H2 & H3 & _ & _ & _ & _ & _ & _ & H4).
  exists data', macd, signal. auto.
Defined.

(** ** The flat series *)

(** C7, as stated, fails: for 250 prices all at 100 with the sma and rsi
    flags set the latest RSI is NaN, not 100, the RSI > 70 rule does not
    fire, and the reason list is empty instead of holding
    "RSI alto (>70) - posible sobrecompra". *)
Lemma flat_250_counterexample :
  exists data,
    calcular_indicadores (tabla_precios (precios_planos 250))
      (flags true true false) = Ok data /\
    ultimo data "RSI" = Ok NaN /\
    ultimo data "RSI" <> Ok (Fin 100) /\
    generar_recomendacion data = Ok ("MANTENER", "hold", []) /\
    generar_recomendacion data <> Ok ("MANTENER", "hold", [msg_rsi_alto]).
Proof.
  eexists. split; [vm_compute; reflexivity|].
  split; [vm_compute; reflexivity|].
  split; [vm_compute; discriminate|].
  split; [vm_compute; reflexivity|].
  vm_compute. discriminate.
Qed.

(** C7 (amended): for 250 prices all at 100 with the sma and rsi flags set,
    SMA50 = SMA200 = 100 at index 249; the 14-period average gain and loss
    there are both 0, so the latest RSI is NaN; no trend, cross or RSI
    condition fires, the score is 0, and the recommendation is
    MANTENER/hold with an empty reason list. *)
Theorem flat_250_holds_without_reasons :
  exists data sma50 sma200,
    calcular_indicadores (tabla_precios (precios_planos 250))
      (flags true true false) = Ok data /\
    ultimos data = Ok (Fin 100, Fin sma50, Fin sma200, NaN) /\
    (sma50 == 100)%Q /\ (sma200 == 100)%Q /\
    (exists g l, avg_gain (precios_planos 250) !! 249%nat = Some (Fin g) /\
                 avg_loss (precios_planos 250) !! 249%nat = Some (Fin l) /\
                 (g == 0)%Q /\ (l == 0)%Q) /\
    puntuar (Fin 100) (Fin sma50) (Fin sma200) NaN = ([], 0%Z) /\
    generar_recomendacion data = Ok ("MANTENER", "hold", []).
Proof.
  eexists _, _, _. split; [vm_compute; reflexivity|].
  split; [vm_compute; reflexivity|].
  split; [vm_compute; reflexivity|].
  split; [vm_compute; reflexivity|].
  split.
  - eexists _, _. split; [vm_compute; reflexivity|].
    split; [vm_compute; reflexivity|].
    split; vm_compute; reflexivity.
  - split; vm_compute; reflexivity.
Qed.

(** ** The frame of [calcular_indicadores] *)

Section Frame.




End Frame.



(** ** Further properties of the recommendation *)

(** The consistent outcomes of the six comparisons of the scoring: of each
    pair of opposite comparisons at most one holds. *)
Ltac comparison_cases p sma50 sma200 rsi :=
  let E := fresh "E" in
  (destruct (fgt p sma200) eqn:E;
     [rewrite (fgt_flt_excl _ _ E)|destruct (flt p sma200)]; clear E);
  (destruct (fgt sma50 sma200) eqn:E;
     [rewrite ?(fgt_flt_excl _ _ E)|destruct (flt sma50 sma200)]);
  (let R := fresh "R" in
   destruct (fgt rsi (Fin 70)) eqn:R;
     [rewrite (rsi_excl _ R)|destruct (flt rsi (Fin 30))]).

Section RecommendationMore.

(** X1: [generar_recomendacion] returns the insufficient-indicators
    fallback exactly when one of the columns Precio, SMA50, SMA200, RSI is
    absent or has no rows; in every other case the result comes from the
    scoring rules and is a different one. *)
Theorem fallback_iff_column_absent_or_empty (data : DataFrame) :
  generar_recomendacion data = Ok ("MANTENER", "hold", [msg_faltan]) <->
  exists col, In col ["Precio"; "SMA50"; "SMA200"; "RSI"] /\
              (df_cols data !! col = None \/ df_cols data !! col = Some []).
Proof.
  rewrite <- ultimos_Raise. split.
  - intros H. destruct (ultimos data) as [[[[p sma50] sma200] rsi]|e] eqn:E.
    + destruct (nan_latest_runs_scoring _ _ _ _ _ E) as [_ Hn]. contradiction.
    + eauto.
  - intros [e He]. unfold generar_recomendacion. rewrite He. reflexivity.
Qed.

Lemma fgt_fneg (x y : fval) : fgt (fneg x) (fneg y) = flt x y.
Proof.
  destruct x as [a| | |], y as [b| | |]; simpl; try reflexivity.
  destruct (Qltb a b) eqn:E.
  - apply Qltb_lt in E. apply Qltb_lt. lra.
  - apply Qltb_ge in E. apply Qltb_ge. lra.
Qed.

Lemma flt_fneg (x y : fval) : flt (fneg x) (fneg y) = fgt x y.
Proof. unfold flt. apply fgt_fneg. Qed.

Lemma rsi_espejo_alto (rsi : fval) :
  fgt (rsi_espejo rsi) (Fin 70) = flt rsi (Fin 30).
Proof.
  destruct rsi as [q| | |]; simpl; try reflexivity.
  destruct (Qltb q 30) eqn:E.
  - apply Qltb_lt in E. apply Qltb_lt. lra.
  - apply Qltb_ge in E. apply Qltb_ge. lra.
Qed.

Lemma rsi_espejo_bajo (rsi : fval) :
  flt (rsi_espejo rsi) (Fin 30) = fgt rsi (Fin 70).
Proof.
  destruct rsi as [q| | |]; simpl; try reflexivity.
  destruct (Qltb 70 q) eqn:E.
  - apply Qltb_lt in E. apply Qltb_lt. lra.
  - apply Qltb_ge in E. apply Qltb_ge. lra.
Qed.

(** X2: the scoring is antisymmetric: on the mirrored values (Precio,
    SMA50 and SMA200 negated, RSI reflected around 50) the score is the
    opposite, the number of reasons is the same, and the verdict is COMPRA
    where it was VENTA and VENTA where it was COMPRA. *)
Theorem score_mirror_symmetry (p sma50 sma200 rsi : fval) :
  let st := puntuar p sma50 sma200 rsi in
  let st' := puntuar (fneg p) (fneg sma50) (fneg sma200) (rsi_espejo rsi) in
  snd st' = (- snd st)%Z /\
  length (fst st') = length (fst st) /\
  (etiqueta (clasificar st') = "COMPRA" <-> etiqueta (clasificar st) = "VENTA") /\
  (etiqueta (clasificar st') = "VENTA" <-> etiqueta (clasificar st) = "COMPRA").
Proof.
  unfold puntuar, regla_rsi, regla_cruce, regla_tendencia, etiqueta, clasificar.
  rewrite !fgt_fneg, !flt_fneg, rsi_espejo_alto, rsi_espejo_bajo.
  comparison_cases p sma50 sma200 rsi;
    simpl; repeat split; intros; try reflexivity; try discriminate.
Qed.

(** On the scoring path, what each verdict needs. *)
Lemma clasificar_compra_venta (p sma50 sma200 rsi : fval) :
  (etiqueta (clasificar (puntuar p sma50 sma200 rsi)) = "COMPRA" ->
     fgt sma50 sma200 = true /\ fgt rsi (Fin 70) = false) /\
  (etiqueta (clasificar (puntuar p sma50 sma200 rsi)) = "VENTA" ->
     flt sma50 sma200 = true /\ flt rsi (Fin 30) = false).
Proof.
  unfold puntuar, regla_rsi, regla_cruce, regla_tendencia, etiqueta, clasificar.
  comparison_cases p sma50 sma200 rsi;
    simpl; split; intros H; try discriminate H; split; reflexivity.
Qed.

(** X3: a COMPRA verdict is only given with SMA50 above SMA200 and an RSI
    that is not above 70; a VENTA verdict only with SMA50 below SMA200 and
    an RSI that is not below 30. *)
Theorem verdict_needs_cross_and_rsi (data : DataFrame)
    (p sma50 sma200 rsi : fval) (label clase : string) (cs : list string) :
  ultimos data = Ok (p, sma50, sma200, rsi) ->
  generar_recomendacion data = Ok (label, clase, cs) ->
  (label = "COMPRA" -> fgt sma50 sma200 = true /\ fgt rsi (Fin 70) = false) /\
  (label = "VENTA" -> flt sma50 sma200 = true /\ flt rsi (Fin 30) = false).
Proof.
  intros Hu Hg.
  rewrite (generar_recomendacion_scoring _ _ _ _ _ Hu) in Hg.
  injection Hg as Hg.
  destruct (clasificar_compra_venta p sma50 sma200 rsi) as [Hc Hv].
  unfold etiqueta in Hc, Hv. rewrite Hg in Hc, Hv. simpl in Hc, Hv.
  split; assumption.
Qed.

(** SMA50 2 above SMA200 1 with the price above too: COMPRA. *)
Lemma verdict_needs_cross_and_rsi_witness :
  fgt (Fin 2) (Fin 1) = true /\ fgt (Fin 50) (Fin 70) = false.
Proof.
  apply (proj1 (verdict_needs_cross_and_rsi
                  (tabla_ultimos (Fin 3) (Fin 2) (Fin 1) (Fin 50))
                  (Fin 3) (Fin 2) (Fin 1) (Fin 50)
                  "COMPRA" "buy" [msg_alcista; msg_golden]
                  eq_refl eq_refl)).
  reflexivity.
Defined.

(** X4: the class returned with a verdict is always a key of the
    dictionary of line 201, so that lookup never raises, and label and class
    go together: COMPRA with buy, VENTA with sell, MANTENER with hold. *)
Theorem reco_clase_lookup_never_fails (data : DataFrame) :
  exists label tipo cs,
    generar_recomendacion data = Ok (label, tipo, cs) /\
    reco_clase tipo = Ok tipo /\
    ((label, tipo) = ("COMPRA", "buy") \/ (label, tipo) = ("VENTA", "sell") \/
     (label, tipo) = ("MANTENER", "hold")).
Proof.
  unfold generar_recomendacion.
  destruct (ultimos data) as [[[[p sma50] sma200] rsi]|e].
  - destruct (puntuar p sma50 sma200 rsi) as [cs sc]. unfold clasificar.
    destruct (2 <=? sc)%Z; [|destruct (sc <=? -2)%Z];
      eexists _, _, _; (split; [reflexivity|]); (split; [reflexivity|]); tauto.
  - eexists _, _, _. split; [reflexivity|]. split; [reflexivity|]. tauto.
Qed.

(** With SMA200 undefined the trend and cross rules are silent. *)
Lemma puntuar_sma200_nan (p sma50 rsi : fval) :
  exists cs,
    clasificar (puntuar p sma50 NaN rsi) = ("MANTENER", "hold", cs) /\
    (cs = [] \/ cs = [msg_rsi_alto] \/ cs = [msg_rsi_bajo]).
Proof.
  unfold puntuar, regla_rsi, regla_cruce, regla_tendencia.
  assert (F : forall x, flt x NaN = false) by reflexivity.
  rewrite !fgt_nan_r, !F. cbn [andb].
  destruct (fgt rsi (Fin 70)); [|destruct (flt rsi (Fin 30))];
    eexists; (split; [reflexivity|]); tauto.
Qed.

Lemma ultimo_Some (data : DataFrame) (col : string) (s : Series) :
  df_cols data !! col = Some s -> s <> [] ->
  exists v, ultimo data col = Ok v /\ last s = Some v.
Proof.
  intros Hc Hs. destruct (last s) as [v|] eqn:E.
  - exists v. split; [|reflexivity]. apply ultimo_Ok. eauto.
  - apply last_None in E. contradiction.
Qed.

End RecommendationMore.

(** ** Further properties of [calcular_indicadores] *)

Section IndicatorsMore.

Lemma length_nonempty {A : Type} (l : list A) : (0 < length l)%nat <-> l <> [].
Proof. destruct l; simpl; split; intros; try lia; congruence. Qed.

Lemma rolling_mean_last_before (n : nat) (s : Series) :
  s <> [] -> (length s < n)%nat -> last (rolling_mean n s) = Some NaN.
Proof.
  intros Hs Hn. apply length_nonempty in Hs.
  rewrite last_lookup, rolling_mean_length.
  apply rolling_mean_before; lia.
Qed.

(** X5: a price series of fewer than 200 points, computed with the sma and
    rsi flags set, always gets MANTENER: the latest SMA200 is NaN, the trend
    and cross rules stay silent, and the reasons are none or the one RSI
    reason. *)
Theorem short_history_always_hold (data : DataFrame)
    (indicadores : gmap string bool) (precio : Series) :
  df_cols data !! "Precio" = Some precio ->
  precio <> [] ->
  (length precio < 200)%nat ->
  dict_get indicadores "sma" = true ->
  dict_get indicadores "rsi" = true ->
  exists data' cs,
    calcular_indicadores data indicadores = Ok data' /\
    ultimo data' "SMA200" = Ok NaN /\
    generar_recomendacion data' = Ok ("MANTENER", "hold", cs) /\
    (cs = [] \/ cs = [msg_rsi_alto] \/ cs = [msg_rsi_bajo]).
Proof.
  intros Hp Hne Hlen Hs Hr.
  pose proof (proj2 (length_nonempty precio) Hne) as Hpos.
  set (data' := {| df_index := df_index data;
                   df_cols := cols_indicadores precio indicadores (df_cols data) |}).
  assert (H200 : ultimo data' "SMA200" = Ok NaN).
  { apply ultimo_Ok. exists (rolling_mean 200 precio). split.
    - simpl. rewrite cols_indicadores_sma200, Hs. reflexivity.
    - apply rolling_mean_last_before; assumption. }
  destruct (ultimo_Some data' "Precio" precio) as (p & Ep & _).
  { simpl. rewrite cols_indicadores_other by (simpl; intuition discriminate).
    exact Hp. }
  { exact Hne. }
  destruct (ultimo_Some data' "SMA50" (rolling_mean 50 precio)) as (s50 & E50 & _).
  { simpl. rewrite cols_indicadores_sma50, Hs. reflexivity. }
  { apply length_nonempty. rewrite rolling_mean_length. exact Hpos. }
  destruct (ultimo_Some data' "RSI" (rsi_of precio)) as (rsi & Er & _).
  { simpl. rewrite cols_indicadores_rsi, Hr. reflexivity. }
  { apply length_nonempty. rewrite rsi_of_length. exact Hpos. }
  assert (Hu : ultimos data' = Ok (p, s50, NaN, rsi)).
  { apply ultimos_Ok. repeat split; assumption. }
  destruct (puntuar_sma200_nan p s50 rsi) as (cs & Hc & Hcs).
  exists data', cs.
  split; [apply (calcular_indicadores_Ok _ _ _ Hp)|].
  split; [exact H200|].
  split; [|exact Hcs].
  rewrite (generar_recomendacion_scoring _ _ _ _ _ Hu), Hc. reflexivity.
Qed.

(** 150 prices 1..150, sma and rsi set. *)
Lemma short_history_always_hold_witness :
  exists data' cs,
    calcular_indicadores (tabla_precios (precios_rampa 150))
      (flags true true false) = Ok data' /\
    generar_recomendacion data' = Ok ("MANTENER", "hold", cs).
Proof.
  destruct (short_history_always_hold
              (tabla_precios (precios_rampa 150)) (flags true true false)
              (precios_rampa 150) eq_refl ltac:(discriminate)
              ltac:(unfold precios_rampa; rewrite length_map, length_seq; lia)
              eq_refl eq_refl)
    as (data' & cs & H1 & _ & H2 & _).
  exists data', cs. split; assumption.
Defined.

(** Without a price column each flag that is set makes the computation
    raise at its first column access. *)
Lemma calcular_indicadores_no_precio (data : DataFrame)
    (indicadores : gmap string bool) :
  df_cols data !! "Precio" = None ->
  calcular_indicadores data indicadores =
  if dict_get indicadores "sma" || dict_get indicadores "rsi"
     || dict_get indicadores "macd"
  then Raise (KeyError "Precio") else Ok data.
Proof.
  intros H. unfold calcular_indicadores, calcular_sma, calcular_rsi,
    calcular_macd, getitem.
  destruct (dict_get indicadores "sma"); simpl; rewrite ?H; simpl;
    [reflexivity|].
  destruct (dict_get indicadores "rsi"); simpl; rewrite ?H; simpl;
    [reflexivity|].
  destruct (dict_get indicadores "macd"); simpl; rewrite ?H; reflexivity.
Qed.

(** X6: without a Precio column the computation raises [KeyError] on
    Precio as soon as one of the three flags is set, and returns the table
    as it is when none is. *)
Theorem no_price_column_raises (data : DataFrame)
    (indicadores : gmap string bool) :
  df_cols data !! "Precio" = None ->
  (dict_get indicadores "sma" = true \/ dict_get indicadores "rsi" = true \/
   dict_get indicadores "macd" = true ->
   calcular_indicadores data indicadores = Raise (KeyError "Precio")) /\
  (dict_get indicadores "sma" = false -> dict_get indicadores "rsi" = false ->
   dict_get indicadores "macd" = false ->
   calcular_indicadores data indicadores = Ok data).
Proof.
  intros H. rewrite (calcular_indicadores_no_precio _ _ H). split.
  - intros [E | [E | E]]; rewrite E, ?orb_true_r; reflexivity.
  - intros -> -> ->. reflexivity.
Qed.

(** A table with a volume column alone, the macd flag set. *)
Lemma no_price_column_raises_witness :
  calcular_indicadores tabla_solo_volumen (flags false false true)
  = Raise (KeyError "Precio").
Proof.
  apply (proj1 (no_price_column_raises tabla_solo_volumen
                  (flags false false true) eq_refl)).
  right. right. reflexivity.
Defined.

(** The closed form applied twice is the closed form. *)
Lemma cols_indicadores_twice (precio : Series) (indicadores : gmap string bool)
    (cols : gmap string Series) :
  cols_indicadores precio indicadores (cols_indicadores precio indicadores cols)
  = cols_indicadores precio indicadores cols.
Proof.
  apply map_eq. intros col.
  destruct (decide (col = "SMA50")) as [->|N1].
  { rewrite !cols_indicadores_sma50. destruct (dict_get indicadores "sma"); reflexivity. }
  destruct (decide (col = "SMA200")) as [->|N2].
  { rewrite !cols_indicadores_sma200. destruct (dict_get indicadores "sma"); reflexivity. }
  destruct (decide (col = "RSI")) as [->|N3].
  { rewrite !cols_indicadores_rsi. destruct (dict_get indicadores "rsi"); reflexivity. }
  destruct (decide (col = "MACD")) as [->|N4].
  { rewrite !cols_indicadores_macd. destruct (dict_get indicadores "macd"); reflexivity. }
  destruct (decide (col = "Signal")) as [->|N5].
  { rewrite !cols_indicadores_signal. destruct (dict_get indicadores "macd"); reflexivity. }
  rewrite cols_indicadores_other; [reflexivity|].
  simpl. intros [?|[?|[?|[?|[?|[]]]]]]; congruence.
Qed.

(** X7: computing the indicators again on the table the computation
    returned, with the same flags, returns that same table: the derived
    columns only depend on Precio, which is left as it was. *)
Theorem calcular_indicadores_idempotent (data data' : DataFrame)
    (indicadores : gmap string bool) :
  calcular_indicadores data indicadores = Ok data' ->
  calcular_indicadores data' indicadores = Ok data'.
Proof.
  intros H. destruct (df_cols data !! "Precio") as [precio|] eqn:Hp.
  - rewrite (calcular_indicadores_Ok _ _ _ Hp) in H. injection H as <-.
    rewrite (calcular_indicadores_Ok _ _ precio).
    + simpl. rewrite cols_indicadores_twice. reflexivity.
    + simpl. rewrite cols_indicadores_other by (simpl; intuition discriminate).
      exact Hp.
  - rewrite (calcular_indicadores_no_precio _ _ Hp) in H.
    destruct (dict_get indicadores "sma" || dict_get indicadores "rsi"
              || dict_get indicadores "macd") eqn:E; [discriminate|].
    injection H as H. subst data'.
    rewrite (calcular_indicadores_no_precio _ _ Hp), E. reflexivity.
Qed.

End IndicatorsMore.

(** Three prices, all flags set. *)
Lemma calcular_indicadores_idempotent_witness :
  exists data',
    calcular_indicadores (tabla_precios (precios_rampa 3)) (flags true true true)
      = Ok data' /\
    calcular_indicadores data' (flags true true true) = Ok data'.
Proof.
  pose proof (calcular_indicadores_Ok (tabla_precios (precios_rampa 3))
                (flags true true true) (precios_rampa 3) eq_refl) as H.
  eexists. split; [exact H|].
  exact (calcular_indicadores_idempotent _ _ _ H).
Defined.

(** ** Further properties of the indicator columns *)

Section ColumnsMore.



End ColumnsMore.


(** ** Bounds on the moving averages *)

Section SMABounds.






End SMABounds.



(** ** The MACD columns *)

Section MACDMore.

Lemma ewm_loop_const (alpha c : Q) (n : nat) :
  ewm_loop alpha (Fin c) 1 (replicate n (Fin c)) = replicate n (Fin c).
Proof.
  induction n as [|n IH]; [reflexivity|].
  cbn [replicate ewm_loop]. unfold ewm_step. cbn [is_nan negb feqb].
  rewrite (Qeq_bool_true c c) by reflexivity. cbn [negb].
  rewrite IH. reflexivity.
Qed.

Lemma ewm_mean_const (span : Z) (c : Q) (n : nat) :
  ewm_mean span (replicate n (Fin c)) = replicate n (Fin c).
Proof.
  destruct n as [|n]; [reflexivity|].
  cbn [replicate ewm_mean]. rewrite ewm_loop_const. reflexivity.
Qed.

Lemma sub_replicate (a b : fval) (n : nat) :
  sub (replicate n a) (replicate n b) = replicate n (fsub a b).
Proof.
  unfold sub. induction n as [|n IH]; [reflexivity|].
  cbn [replicate zip_with]. rewrite IH. reflexivity.
Qed.

(** X10: on a price series that stays at one finite value, whatever the
    value and the length, the MACD and Signal columns are 0 at every
    index. *)
Theorem flat_prices_zero_macd (data : DataFrame)
    (indicadores : gmap string bool) (c : Q) (n : nat) :
  df_cols data !! "Precio" = Some (replicate n (Fin c)) ->
  dict_get indicadores "macd" = true ->
  exists data' z,
    calcular_indicadores data indicadores = Ok data' /\
    df_cols data' !! "MACD" = Some (replicate n (Fin z)) /\
    df_cols data' !! "Signal" = Some (replicate n (Fin z)) /\
    (z == 0)%Q.
Proof.
  intros Hp Hm. eexists _, (c + - c)%Q.
  split; [apply (calcular_indicadores_Ok _ _ _ Hp)|]. simpl.
  rewrite cols_indicadores_macd, cols_indicadores_signal, Hm.
  unfold macd_of. rewrite !ewm_mean_const, sub_replicate.
  change (fsub (Fin c) (Fin c)) with (Fin (c + - c)).
  rewrite ewm_mean_const.
  split; [reflexivity|]. split; [reflexivity|]. ring.
Qed.

(** 30 prices at 100. *)
Lemma flat_prices_zero_macd_witness :
  exists data' z,
    calcular_indicadores (tabla_precios (precios_planos 30))
      (flags false false true) = Ok data' /\
    df_cols data' !! "MACD" = Some (replicate 30 (Fin z)) /\
    (z == 0)%Q.
Proof.
  destruct (flat_prices_zero_macd (tabla_precios (precios_planos 30))
              (flags false false true) 100 30 eq_refl eq_refl)
    as (data' & z & H1 & H2 & _ & H3).
  exists data', z. auto.
Defined.

Lemma Forall_finite_map_Fin (qs : list Q) :
  Forall (fun x => is_finite x = true) (map Fin qs).
Proof.
  rewrite map_fmap. apply Forall_fmap, Forall_forall. intros; reflexivity.
Qed.

(** X11: for a price series of finite values the MACD and Signal columns
    have one value per price and every one of them is a finite number: the
    exponential averages have no leading undefined window. *)
Theorem macd_defined_everywhere (data : DataFrame)
    (indicadores : gmap string bool) (qs : list Q) :
  df_cols data !! "Precio" = Some (map Fin qs) ->
  dict_get indicadores "macd" = true ->
  exists data' macd signal,
    calcular_indicadores data indicadores = Ok data' /\
    df_cols data' !! "MACD" = Some macd /\
    df_cols data' !! "Signal" = Some signal /\
    length macd = length qs /\ length signal = length qs /\
    Forall (fun x => is_finite x = true) macd /\
    Forall (fun x => is_finite x = true) signal.
Proof.
  intros Hp Hm.
  pose proof (sub_finite _ _ _ _ (ewm_mean_finite 12 qs) (ewm_mean_finite 26 qs))
    as Hsub.
  fold (macd_of (map Fin qs)) in Hsub.
  destruct (feq_Fin_inv _ _ Hsub) as [Hms _].
  pose proof (ewm_mean_finite 9 (map q_of (macd_of (map Fin qs)))) as Hsig.
  rewrite <- Hms in Hsig. destruct (feq_Fin_inv _ _ Hsig) as [Hss _].
  eexists _, (macd_of (map Fin qs)), (ewm_mean 9 (macd_of (map Fin qs))).
  split; [apply (calcular_indicadores_Ok _ _ _ Hp)|]. simpl.
  rewrite cols_indicadores_macd, cols_indicadores_signal, Hm.
  split; [reflexivity|]. split; [reflexivity|].
  split; [rewrite macd_of_length, length_map; reflexivity|].
  split; [rewrite ewm_mean_length, macd_of_length, length_map; reflexivity|].
  split.
  - rewrite Hms. apply Forall_finite_map_Fin.
  - rewrite Hss. apply Forall_finite_map_Fin.
Qed.

(** Prices 1, 2, 3. *)
Lemma macd_defined_everywhere_witness :
  exists data' macd signal,
    calcular_indicadores (tabla_precios (map Fin [1; 2; 3]%Q))
      (flags false false true) = Ok data' /\
    df_cols data' !! "MACD" = Some macd /\
    df_cols data' !! "Signal" = Some signal /\
    length macd = 3%nat /\ length signal = 3%nat.
Proof.
  destruct (macd_defined_everywhere (tabla_precios (map Fin [1; 2; 3]%Q))
              (flags false false true) [1; 2; 3]%Q eq_refl eq_refl)
    as (data' & macd & signal & H1 & H2 & H3 & H4 & H5 & _).
  exists data', macd, signal. auto.
Defined.

End MACDMore.

(** ** When the RSI is undefined *)

Section RSIUndefined.















End RSIUndefined.


(** ** The download *)

Section Download.

(** X13: [safe_download] calls the download at least once and at most 3
    times; it returns the table of the first attempt that gives a non-empty
    one, so never an empty table, and every attempt before that one failed;
    it ends in [RetryError] exactly when the three attempts fail. *)
Theorem safe_download_first_nonempty (mundo : nat -> respuesta) :
  exists r n,
    safe_download mundo = (r, n) /\
    (1 <= n <= 3)%nat /\
    (forall k, (1 <= k < n)%nat -> safe_download_body (mundo k) = None) /\
    match r with
    | Some data =>
        mundo n = Devuelve data /\ df_empty data = false
    | None =>
        n = 3%nat /\ safe_download_body (mundo 3%nat) = None
    end.
Proof.
  unfold safe_download. cbn [retry].
  assert (B : forall k data, safe_download_body (mundo k) = Some data ->
            mundo k = Devuelve data /\ df_empty data = false).
  { intros k data H. unfold safe_download_body in H.
    destruct (mundo k) as [d|]; [|discriminate].
    destruct (df_empty d) eqn:E; [discriminate|].
    injection H as <-. split; [reflexivity|exact E]. }
  destruct (safe_download_body (mundo 1%nat)) as [d1|] eqn:E1.
  { exists (Some d1), 1%nat. split; [reflexivity|]. split; [lia|].
    split; [intros k Hk; lia|]. apply B, E1. }
  destruct (safe_download_body (mundo 2%nat)) as [d2|] eqn:E2.
  { exists (Some d2), 2%nat. split; [reflexivity|]. split; [lia|].
    split; [|apply B, E2].
    intros k Hk. assert (k = 1%nat) as -> by lia. exact E1. }
  destruct (safe_download_body (mundo 3%nat)) as [d3|] eqn:E3.
  { exists (Some d3), 3%nat. split; [reflexivity|]. split; [lia|].
    split; [|apply B, E3].
    intros k Hk. assert (k = 1 \/ k = 2)%nat as [-> | ->] by lia; assumption. }
  exists None, 3%nat. split; [reflexivity|]. split; [lia|].
  split; [|split; reflexivity].
  intros k Hk. assert (k = 1 \/ k = 2)%nat as [-> | ->] by lia; assumption.
Qed.

End Download.

(** ** The preparation of the table *)

Section Preparation.

Lemma price_col_cases (df : DataFrame) :
  price_col df =
  match df_cols df !! "Adj Close", df_cols df !! "Close" with
  | Some _, _ => Some "Adj Close"
  | None, Some _ => Some "Close"
  | None, None => None
  end.
Proof.
  unfold price_col. cbn [List.find].
  destruct (df_cols df !! "Adj Close") as [s|].
  - rewrite bool_decide_eq_true_2 by eauto. reflexivity.
  - rewrite bool_decide_eq_false_2 by (intros [? ?]; discriminate).
    destruct (df_cols df !! "Close") as [s|].
    + rewrite bool_decide_eq_true_2 by eauto. reflexivity.
    + rewrite bool_decide_eq_false_2 by (intros [? ?]; discriminate).
      reflexivity.
Qed.

(** The columns of the prepared table. *)
Lemma preparar_datos_Some (df : DataFrame) (c : string) (s : Series) :
  price_col df = Some c -> df_cols df !! c = Some s ->
  preparar_datos df =
  Ok (Some {| df_index := df_index df;
              df_cols := match df_cols df !! "Volume" with
                         | Some v => <["Volumen" := v]> {[ "Precio" := s ]}
                         | None => {[ "Precio" := s ]}
                         end |}).
Proof.
  intros Hc Hs. unfold preparar_datos, columna_como, getitem.
  rewrite Hc, Hs. simpl.
  destruct (df_cols df !! "Volume") as [v|].
  - rewrite bool_decide_eq_true_2 by eauto. reflexivity.
  - rewrite bool_decide_eq_false_2 by (intros [? ?]; discriminate). reflexivity.
Qed.

Lemma price_col_found (df : DataFrame) (c : string) :
  price_col df = Some c -> exists s, df_cols df !! c = Some s.
Proof.
  rewrite price_col_cases.
  destruct (df_cols df !! "Adj Close") as [s|] eqn:E1.
  - intros [= <-]. eauto.
  - destruct (df_cols df !! "Close") as [s|] eqn:E2; [|discriminate].
    intros [= <-]. eauto.
Qed.

(** X14: the preparation never raises; it takes the Adj Close column as
    Precio when the download has one, the Close column otherwise, and stops
    the script when it has neither; the prepared table is on the index of
    the download and holds Precio, Volumen when the download has a Volume
    column (with its values), and no other column. *)
Theorem preparar_datos_prefers_adj_close (df : DataFrame) :
  exists o,
    preparar_datos df = Ok o /\
    (o = None <->
     df_cols df !! "Adj Close" = None /\ df_cols df !! "Close" = None) /\
    forall data, o = Some data ->
      df_index data = df_index df /\
      df_cols data !! "Precio" =
        (match df_cols df !! "Adj Close" with
         | Some s => Some s
         | None => df_cols df !! "Close"
         end) /\
      df_cols data !! "Volumen" = df_cols df !! "Volume" /\
      (forall col, col <> "Precio" -> col <> "Volumen" ->
         df_cols data !! col = None) /\
      (df_wf df -> df_wf data).
Proof.
  destruct (price_col df) as [c|] eqn:Hc.
  - destruct (price_col_found df c Hc) as [s Hs].
    eexists. split; [apply (preparar_datos_Some df c s Hc Hs)|].
    rewrite price_col_cases in Hc. split.
    + split; [discriminate|]. intros [H1 H2]. rewrite H1, H2 in Hc. discriminate.
    + intros data [= <-]. simpl.
      assert (Hp : (match df_cols df !! "Adj Close" with
                    | Some s0 => Some s0
                    | None => df_cols df !! "Close"
                    end) = Some s).
      { destruct (df_cols df !! "Adj Close") as [a|] eqn:E1.
        - injection Hc as <-. congruence.
        - destruct (df_cols df !! "Close") as [b|] eqn:E2; [|discriminate].
          injection Hc as <-. congruence. }
      rewrite Hp. split; [reflexivity|].
      destruct (df_cols df !! "Volume") as [v|] eqn:Ev.
      * split; [rewrite lookup_insert_ne by discriminate;
                apply lookup_singleton_eq|].
        split; [apply lookup_insert_eq|].
        split.
        -- intros col N1 N2. rewrite lookup_insert_ne by congruence.
           apply lookup_singleton_ne. congruence.
        -- intros Hwf col x Hx. simpl in *.
           apply lookup_insert_Some in Hx as [[_ <-]|[_ Hx]].
           ++ apply (Hwf _ _ Ev).
           ++ apply lookup_singleton_Some in Hx as [_ <-]. apply (Hwf _ _ Hs).
      * split; [apply lookup_singleton_eq|].
        split; [apply lookup_singleton_ne; discriminate|].
        split.
        -- intros col N1 N2. apply lookup_singleton_ne. congruence.
        -- intros Hwf col x Hx. simpl in *.
           apply lookup_singleton_Some in Hx as [_ <-]. apply (Hwf _ _ Hs).
  - exists None. unfold preparar_datos. rewrite Hc.
    split; [reflexivity|]. rewrite price_col_cases in Hc. split.
    + split; [|reflexivity]. intros _.
      destruct (df_cols df !! "Adj Close"); [discriminate|].
      destruct (df_cols df !! "Close"); [discriminate|]. split; reflexivity.
    + intros data [=].
Qed.

End Preparation.

(** ** The script as a whole *)

Section Script.

Lemma dict_get_flags (a b c : bool) :
  dict_get (flags a b c) "sma" = a /\ dict_get (flags a b c) "rsi" = b /\
  dict_get (flags a b c) "macd" = c.
Proof. repeat split. Qed.

Lemma dict_item_flags (a b c : bool) :
  dict_item (flags a b c) "sma" = Ok a /\ dict_item (flags a b c) "rsi" = Ok b /\
  dict_item (flags a b c) "macd" = Ok c.
Proof. repeat split. Qed.

Lemma iloc_last_nonempty (s : Series) : s <> [] -> exists v, iloc_last s = Ok v.
Proof.
  intros Hs. unfold iloc_last. destruct (last s) as [v|] eqn:E; [eauto|].
  apply last_None in E. contradiction.
Qed.

Lemma iloc_first_nonempty (s : Series) : s <> [] -> exists v, iloc_first s = Ok v.
Proof. destruct s as [|v s]; [contradiction|]. simpl. eauto. Qed.

Lemma cols_preparado_precio (df : DataFrame) (s : Series) :
  cols_preparado df s !! "Precio" = Some s.
Proof.
  unfold cols_preparado. destruct (df_cols df !! "Volume").
  - rewrite lookup_insert_ne by discriminate. apply lookup_singleton_eq.
  - apply lookup_singleton_eq.
Qed.

Lemma cols_preparado_derivada (df : DataFrame) (s : Series) (col : string) :
  In col derivadas -> cols_preparado df s !! col = None.
Proof.
  intros Hin. unfold cols_preparado. simpl in Hin.
  destruct (df_cols df !! "Volume");
    destruct Hin as [<-|[<-|[<-|[<-|[<-|[]]]]]];
    rewrite ?lookup_insert_ne by discriminate;
    apply lookup_singleton_ne; discriminate.
Qed.

Variable df : DataFrame.
Variables sma rsi macd : bool.
Variable c : string.
Variable s : Series.
Hypothesis Hc : price_col df = Some c.
Hypothesis Hs : df_cols df !! c = Some s.
Hypothesis Hne : s <> [].

Local Abbreviation indicadores := (flags sma rsi macd).
Local Abbreviation data' := (tabla_calculada df sma rsi macd s).

Lemma data'_precio : getitem data' "Precio" = Ok s.
Proof.
  apply getitem_Some. simpl.
  rewrite cols_indicadores_other by (simpl; intuition discriminate).
  apply cols_preparado_precio.
Qed.

Lemma data'_sma50 :
  df_cols data' !! "SMA50" = if sma then Some (rolling_mean 50 s) else None.
Proof.
  simpl. rewrite cols_indicadores_sma50.
  rewrite (proj1 (dict_get_flags sma rsi macd)).
  rewrite cols_preparado_derivada by (simpl; tauto). reflexivity.
Qed.

Lemma data'_sma200 :
  df_cols data' !! "SMA200" = if sma then Some (rolling_mean 200 s) else None.
Proof.
  simpl. rewrite cols_indicadores_sma200.
  rewrite (proj1 (dict_get_flags sma rsi macd)).
  rewrite cols_preparado_derivada by (simpl; tauto). reflexivity.
Qed.

Lemma data'_rsi :
  df_cols data' !! "RSI" = if rsi then Some (rsi_of s) else None.
Proof.
  simpl. rewrite cols_indicadores_rsi.
  rewrite (proj1 (proj2 (dict_get_flags sma rsi macd))).
  rewrite cols_preparado_derivada by (simpl; tauto). reflexivity.
Qed.

Lemma data'_macd :
  df_cols data' !! "MACD" = if macd then Some (macd_of s) else None.
Proof.
  simpl. rewrite cols_indicadores_macd.
  rewrite (proj2 (proj2 (dict_get_flags sma rsi macd))).
  rewrite cols_preparado_derivada by (simpl; tauto). reflexivity.
Qed.

Lemma data'_signal :
  df_cols data' !! "Signal" =
  if macd then Some (ewm_mean 9 (macd_of s)) else None.
Proof.
  simpl. rewrite cols_indicadores_signal.
  rewrite (proj2 (proj2 (dict_get_flags sma rsi macd))).
  rewrite cols_preparado_derivada by (simpl; tauto). reflexivity.
Qed.

Lemma rolling_nonempty (n : nat) : rolling_mean n s <> [].
Proof.
  apply length_nonempty. rewrite rolling_mean_length.
  apply length_nonempty, Hne.
Qed.

Lemma grafico_precios_ok : exists l, grafico_precios data' indicadores = Ok l.
Proof.
  unfold grafico_precios. rewrite data'_precio. simpl.
  rewrite (proj1 (dict_item_flags sma rsi macd)). simpl.
  unfold getitem. rewrite data'_sma50, data'_sma200.
  destruct sma; simpl; eauto.
Qed.

Lemma variacion_ok : exists v, variacion data' = Ok v.
Proof.
  unfold variacion. rewrite data'_precio. simpl.
  destruct (iloc_last_nonempty s Hne) as [a ->].
  destruct (iloc_first_nonempty s Hne) as [b ->]. simpl. eauto.
Qed.

Lemma metricas_sma_ok : exists m, metricas_sma data' indicadores = Ok m.
Proof.
  unfold metricas_sma.
  rewrite (proj1 (dict_item_flags sma rsi macd)). simpl.
  unfold getitem. rewrite data'_sma50, data'_sma200.
  destruct (iloc_last_nonempty _ (rolling_nonempty 50)) as [a Ha].
  destruct (iloc_last_nonempty _ (rolling_nonempty 200)) as [b Hb].
  destruct sma; simpl; [|eauto].
  rewrite Ha. simpl. rewrite Hb. simpl. eauto.
Qed.

Lemma pestanas_ok : exists p, pestanas data' indicadores = Ok p.
Proof.
  unfold pestanas.
  rewrite (proj1 (proj2 (dict_item_flags sma rsi macd))). cbn [bind].
  assert (R : exists rs, (if rsi then let* r := getitem data' "RSI" in Ok [r]
                          else Ok []) = Ok rs).
  { unfold getitem. rewrite data'_rsi. destruct rsi; simpl; eauto. }
  destruct R as [rs ->]. cbn [bind].
  rewrite (proj2 (proj2 (dict_item_flags sma rsi macd))). cbn [bind].
  assert (M : exists ms,
            (if macd
             then let* m := getitem data' "MACD" in
                  let* s0 := getitem data' "Signal" in
                  let* m' := getitem data' "MACD" in
                  let* s' := getitem data' "Signal" in
                  Ok ([m; s0], Some (colores_macd m' s'))
             else Ok ([], None)) = Ok ms).
  { unfold getitem. rewrite data'_macd, data'_signal.
    destruct macd; simpl; eauto. }
  destruct M as [ms ->]. cbn [bind].
  assert (V : exists vs,
            (if bool_decide (is_Some (df_cols data' !! "Volumen"))
             then let* v := getitem data' "Volumen" in Ok [v]
             else Ok []) = Ok vs).
  { unfold getitem. destruct (df_cols data' !! "Volumen") as [v|].
    - rewrite bool_decide_eq_true_2 by (eexists; reflexivity).
      eexists. reflexivity.
    - rewrite bool_decide_eq_false_2 by (intros [? ?]; discriminate).
      eexists. reflexivity. }
  destruct V as [vs ->]. eexists. reflexivity.
Qed.

Lemma reco_clase_ok (data : DataFrame) :
  exists reco clase,
    generar_recomendacion data = Ok reco /\ reco_clase (snd (fst reco)) = Ok clase.
Proof.
  unfold generar_recomendacion.
  destruct (ultimos data) as [[[[p s50] s200] r]|e].
  - destruct (puntuar p s50 s200 r) as [cs sc]. unfold clasificar.
    destruct (2 <=? sc)%Z; [|destruct (sc <=? -2)%Z];
      eexists _, _; split; reflexivity.
  - eexists _, _. split; reflexivity.
Qed.

(** With a price column that has rows the script runs to its end, on the
    table [data']. *)
Lemma analizar_Some :
  exists inf,
    analizar df sma rsi macd = Ok (Some inf) /\
    inf_data inf = data' /\
    generar_recomendacion data' = Ok (inf_reco inf) /\
    variacion data' = Ok (inf_variacion inf).
Proof.
  unfold analizar. rewrite (preparar_datos_Some df c s Hc Hs). simpl.
  fold (cols_preparado df s).
  rewrite (calcular_indicadores_Ok _ _ s) by (simpl; apply cols_preparado_precio).
  simpl. fold (tabla_calculada df sma rsi macd s).
  destruct grafico_precios_ok as [l ->]. simpl.
  destruct variacion_ok as [v Hv]. rewrite Hv. simpl.
  destruct metricas_sma_ok as [m ->]. simpl.
  destruct pestanas_ok as [p ->]. simpl.
  destruct (reco_clase_ok data') as (reco & clase & Hr & Hk).
  rewrite Hr. simpl. rewrite Hk. simpl.
  eexists. split; [reflexivity|]. simpl. auto.
Qed.

(** The recommendation on [data'] is the fallback exactly when the sma or
    the rsi box is not ticked. *)
Lemma data'_fallback_iff :
  generar_recomendacion data' = Ok ("MANTENER", "hold", [msg_faltan]) <->
  sma = false \/ rsi = false.
Proof.
  pose proof data'_sma50 as H50. pose proof data'_sma200 as H200.
  pose proof data'_rsi as Hrsi.
  assert (Hp : df_cols data' !! "Precio" = Some s).
  { pose proof data'_precio as H. unfold getitem in H.
    destruct (df_cols data' !! "Precio"); congruence. }
  split.
  - intros H.
    destruct (bool_decide (sma = false \/ rsi = false)) eqn:D;
      [apply bool_decide_eq_true in D; exact D|].
    apply bool_decide_eq_false in D. exfalso.
    assert (Es : sma = true) by (destruct sma; [reflexivity|tauto]).
    assert (Er : rsi = true) by (destruct rsi; [reflexivity|tauto]).
    assert (H50' : df_cols data' !! "SMA50" = Some (rolling_mean 50 s))
      by (rewrite H50, Es; reflexivity).
    assert (H200' : df_cols data' !! "SMA200" = Some (rolling_mean 200 s))
      by (rewrite H200, Es; reflexivity).
    assert (Hrsi' : df_cols data' !! "RSI" = Some (rsi_of s))
      by (rewrite Hrsi, Er; reflexivity).
    destruct (ultimo_Some data' "Precio" s Hp Hne) as (p & Ep & _).
    destruct (ultimo_Some data' "SMA50" _ H50' (rolling_nonempty 50))
      as (a & Ea & _).
    destruct (ultimo_Some data' "SMA200" _ H200' (rolling_nonempty 200))
      as (b & Eb & _).
    destruct (ultimo_Some data' "RSI" (rsi_of s) Hrsi') as (r & Err & _).
    { apply length_nonempty. rewrite rsi_of_length. apply length_nonempty, Hne. }
    assert (Hu : ultimos data' = Ok (p, a, b, r))
      by (apply ultimos_Ok; repeat split; assumption).
    destruct (nan_latest_runs_scoring _ _ _ _ _ Hu) as [_ Hn]. contradiction.
  - intros Hf.
    destruct (proj2 (ultimos_Raise data')) as [e He].
    + destruct Hf as [E | E].
      * exists "SMA50". split; [simpl; tauto|]. left. rewrite H50, E. reflexivity.
      * exists "RSI". split; [simpl; tauto|]. left. rewrite Hrsi, E. reflexivity.
    + unfold generar_recomendacion. rewrite He. reflexivity.
Qed.

End Script.

(** ** Claims on the script as a whole *)

Lemma df_nonempty_column (df : DataFrame) (c : string) (s : Series) :
  df_wf df -> df_empty df = false -> df_cols df !! c = Some s -> s <> [].
Proof.
  intros Hwf He Hs. apply length_nonempty. rewrite (Hwf _ _ Hs).
  unfold df_empty in He. destruct (df_index df); [discriminate|]. simpl. lia.
Qed.

Lemma descarga_ejemplo_wf : df_wf descarga_ejemplo.
Proof.
  intros col x Hx. unfold descarga_ejemplo in *. simpl in *.
  apply lookup_insert_Some in Hx as [[_ <-]|[_ Hx]]; [reflexivity|].
  apply lookup_singleton_Some in Hx as [_ <-]. reflexivity.
Qed.

(** X15: on a downloaded table that is not empty (which is what
    [safe_download] returns) the script raises nowhere, whatever boxes are
    ticked: every column and every flag it reads is there, and every
    [iloc] finds a row. It stops early exactly when the download has
    neither an Adj Close nor a Close column. *)
Theorem script_never_raises (df : DataFrame) (sma rsi macd : bool) :
  df_wf df -> df_empty df = false ->
  exists o,
    analizar df sma rsi macd = Ok o /\
    (o = None <->
     df_cols df !! "Adj Close" = None /\ df_cols df !! "Close" = None).
Proof.
  intros Hwf He. destruct (price_col df) as [c|] eqn:Hc.
  - destruct (price_col_found df c Hc) as [s Hs].
    pose proof (df_nonempty_column df c s Hwf He Hs) as Hne.
    destruct (analizar_Some df sma rsi macd c s Hc Hs Hne) as (inf & Hi & _).
    exists (Some inf). split; [exact Hi|].
    rewrite price_col_cases in Hc.
    split; [discriminate|]. intros [H1 H2]. rewrite H1, H2 in Hc. discriminate.
  - exists None. split.
    + unfold analizar, preparar_datos. rewrite Hc. reflexivity.
    + rewrite price_col_cases in Hc. split; [|reflexivity]. intros _.
      destruct (df_cols df !! "Adj Close"); [discriminate|].
      destruct (df_cols df !! "Close"); [discriminate|]. split; reflexivity.
Qed.

(** Three rows with Close and Volume, every box ticked. *)
Lemma script_never_raises_witness :
  exists o, analizar descarga_ejemplo true true true = Ok o /\ o <> None.
Proof.
  destruct (script_never_raises descarga_ejemplo true true true
              descarga_ejemplo_wf eq_refl) as (o & Ho & Hn).
  exists o. split; [exact Ho|].
  intros E. apply Hn in E as [_ E]. vm_compute in E. discriminate.
Defined.

(** X16: in the script the recommendation shown is the
    insufficient-indicators fallback exactly when the SMA box or the RSI box
    is not ticked; with both ticked the verdict always comes from the
    scoring rules, however short the history. *)
Theorem app_fallback_iff_box_unticked (df : DataFrame) (sma rsi macd : bool)
    (inf : Informe) :
  df_wf df -> df_empty df = false ->
  analizar df sma rsi macd = Ok (Some inf) ->
  (inf_reco inf = ("MANTENER", "hold", [msg_faltan]) <->
   sma = false \/ rsi = false).
Proof.
  intros Hwf He Ha. destruct (price_col df) as [c|] eqn:Hc.
  - destruct (price_col_found df c Hc) as [s Hs].
    pose proof (df_nonempty_column df c s Hwf He Hs) as Hne.
    destruct (analizar_Some df sma rsi macd c s Hc Hs Hne)
      as (inf' & Hi & _ & Hr & _).
    rewrite Hi in Ha. injection Ha as ->.
    rewrite <- (data'_fallback_iff df sma rsi macd c s Hs Hne), Hr.
    split; [intros ->; reflexivity | intros [= ->]; reflexivity].
  - unfold analizar, preparar_datos in Ha. rewrite Hc in Ha. discriminate.
Qed.

(** Three rows, the SMA box not ticked. *)
Lemma app_fallback_iff_box_unticked_witness :
  exists inf,
    analizar descarga_ejemplo false true true = Ok (Some inf) /\
    inf_reco inf = ("MANTENER", "hold", [msg_faltan]).
Proof.
  eexists. split; [vm_compute; reflexivity|].
  apply (proj2 (app_fallback_iff_box_unticked descarga_ejemplo false true true _
                  descarga_ejemplo_wf eq_refl ltac:(vm_compute; reflexivity))).
  left. reflexivity.
Defined.

Section Metrics.

Lemma fmap_last_Fin (qs : list Q) (q : Q) :
  last qs = Some q -> last (map Fin qs) = Some (Fin q).
Proof. intros H. rewrite map_fmap, fmap_last, H. reflexivity. Qed.

(** X17: with a positive first price and finite prices the variation
    shown is (last - first) / first * 100; it is positive exactly when the
    last price is above the first, negative exactly when it is below, and 0
    exactly when they are equal. *)
Theorem variacion_sign (data : DataFrame) (q0 ql : Q) (qs : list Q) :
  df_cols data !! "Precio" = Some (map Fin (q0 :: qs)) ->
  last (q0 :: qs) = Some ql ->
  (0 < q0)%Q ->
  exists v,
    variacion data = Ok (Fin v) /\
    (v == (ql - q0) / q0 * 100)%Q /\
    ((0 < v)%Q <-> (q0 < ql)%Q) /\
    ((v < 0)%Q <-> (ql < q0)%Q) /\
    ((v == 0)%Q <-> (ql == q0)%Q).
Proof.
  intros Hp Hl H0. unfold variacion.
  rewrite (getitem_Some _ _ _ Hp). cbn [bind].
  unfold iloc_last. rewrite (fmap_last_Fin _ _ Hl). cbn [bind map iloc_first].
  cbn [fsub fneg fadd fdiv].
  rewrite (Qeq_bool_false q0 0) by (intros E; rewrite E in H0; discriminate).
  cbn [fmul]. eexists. split; [reflexivity|].
  assert (Hq : ~ (q0 == 0)%Q) by (intros E; rewrite E in H0; discriminate).
  assert (E : ((ql + - q0) / q0 * 100 == (ql - q0) / q0 * 100)%Q)
    by (field; exact Hq).
  split; [exact E|].
  set (v := ((ql + - q0) / q0 * 100)%Q) in *.
  assert (Ev : (v * q0 == (ql - q0) * 100)%Q)
    by (unfold v; field; exact Hq).
  repeat split; intros H; nra.
Qed.

(** Prices 5, 6, 7: the variation is 40. *)
Lemma variacion_sign_witness :
  exists v, variacion (tabla_precios (map Fin [5; 6; 7]%Q)) = Ok (Fin v) /\
            (0 < v)%Q.
Proof.
  destruct (variacion_sign (tabla_precios (map Fin [5; 6; 7]%Q)) 5 7 [6; 7]%Q
              eq_refl eq_refl eq_refl)
    as (v & Hv & _ & Hpos & _).
  exists v. split; [exact Hv|]. apply Hpos. reflexivity.
Defined.

End Metrics.

Section MetricsMore.

(** X18: a first price of 0 raises nothing: the division by zero gives an
    infinity or NaN, and the variation shown is not a finite number. *)
Theorem variacion_zero_first_price (data : DataFrame) (q0 : Q) (rest : Series) :
  df_cols data !! "Precio" = Some (Fin q0 :: rest) ->
  (q0 == 0)%Q ->
  exists v, variacion data = Ok v /\ is_finite v = false.
Proof.
  intros Hp H0. unfold variacion.
  rewrite (getitem_Some _ _ _ Hp). cbn [bind].
  destruct (iloc_last_nonempty (Fin q0 :: rest) ltac:(discriminate)) as [x ->].
  cbn [bind iloc_first]. eexists. split; [reflexivity|].
  destruct x as [a| | |]; cbn [fsub fneg fadd fdiv];
    rewrite ?(Qeq_bool_true q0 0 H0).
  - destruct (Qeq_bool (a + - q0) 0); [reflexivity|].
    destruct (Qltb 0 (a + - q0)); reflexivity.
  - destruct (Qltb q0 0); reflexivity.
  - destruct (Qltb q0 0); reflexivity.
  - reflexivity.
Qed.

(** Prices 0, 3. *)
Lemma variacion_zero_first_price_witness :
  variacion (tabla_precios [Fin 0; Fin 3]) = Ok PInf.
Proof.
  destruct (variacion_zero_first_price (tabla_precios [Fin 0; Fin 3]) 0 [Fin 3]
              eq_refl ltac:(reflexivity)) as (v & Hv & _).
  rewrite Hv. vm_compute in Hv. injection Hv as <-. reflexivity.
Defined.

Lemma fsub_self_not_positive (x : fval) : fgt (fsub x x) (Fin 0) = false.
Proof.
  destruct x as [a| | |]; try reflexivity.
  cbn [fsub fneg fadd fgt]. apply Qltb_ge. lra.
Qed.

(** X19: whatever the prices, the first bar of the MACD histogram is red,
    never green: Signal starts at the first MACD value, so their first
    difference is not above 0. *)
Theorem first_macd_bar_is_red (precio : Series) :
  precio <> [] ->
  colores_macd (macd_of precio) (ewm_mean 9 (macd_of precio)) !! 0%nat
  = Some "red".
Proof.
  intros Hne. unfold colores_macd, sub.
  rewrite map_fmap, list_lookup_fmap, lookup_zip_with, ewm_mean_head.
  destruct (lookup_lt_is_Some_2 (macd_of precio) 0) as [m0 Hm].
  { rewrite macd_of_length. apply length_nonempty, Hne. }
  rewrite Hm. cbn [mbind option_bind fmap option_fmap option_map].
  rewrite fsub_self_not_positive. reflexivity.
Qed.

(** Prices 1, 2, 3. *)
Lemma first_macd_bar_is_red_witness :
  colores_macd (macd_of (map Fin [1; 2; 3]%Q))
               (ewm_mean 9 (macd_of (map Fin [1; 2; 3]%Q))) !! 0%nat
  = Some "red".
Proof.
  apply (first_macd_bar_is_red (map Fin [1; 2; 3]%Q)). discriminate.
Defined.

End MetricsMore.
